(** * Cookie-session demo: the three auth endpoints over the fake user record

    A shallow embedding of the server side of the repository:
    [util/fakeDb.ts], [util/sanitizeUser.ts] and the edge handlers
    [pages/api/auth/login.ts], [pages/api/auth/me.ts] and
    [pages/api/auth/logout.ts].

    What the handlers take from outside the repository (bcryptjs, the JSON
    codec, the Date object) is gathered in the class [Platform]; every
    theorem holds for any platform.  Instants are milliseconds since the
    epoch, as the time value of a JavaScript [Date]. *)

From Stdlib Require Import Ascii String ZArith.
From stdpp Require Import gmap strings list pretty.

Local Open Scope string_scope.

(** ** JavaScript values that travel as JSON *)

(** Numbers are kept as integers: the handlers only ever ask of a number
    whether it is zero (truthiness) or use it as a time value. *)
#[warnings="-register-all"]
Inductive json : Type :=
  | JNull
  | JBool (b : bool)
  | JNum (n : Z)
  | JStr (s : string)
  | JArr (items : list json)
  | JObj (props : list (string * json)).

(** A JavaScript value met in the handlers: a JSON value or [undefined]. *)
Abbreviation jsval := (option json).
Abbreviation undefined := (@None json).

(** Own property lookup in an object literal. *)
Fixpoint assoc {A : Type} (k : string) (o : list (string * A)) : option A :=
  match o with
  | [] => None
  | (k', v) :: o' => if String.eqb k k' then Some v else assoc k o'
  end.

(** [!v] is false exactly on the truthy values. *)
Definition truthy (v : jsval) : bool :=
  match v with
  | None => false
  | Some JNull => false
  | Some (JBool b) => b
  | Some (JNum n) => negb (n =? 0)%Z
  | Some (JStr s) => negb (String.eqb s "")
  | Some (JArr _) | Some (JObj _) => true
  end.

(** [typeof v]. *)
Definition typeof (v : jsval) : string :=
  match v with
  | None => "undefined"
  | Some (JBool _) => "boolean"
  | Some (JNum _) => "number"
  | Some (JStr _) => "string"
  | Some JNull | Some (JArr _) | Some (JObj _) => "object"
  end.

(** [v === s] for a string [s]: no coercion, so only a string can be equal. *)
Definition strictEq (v : jsval) (s : string) : bool :=
  match v with
  | Some (JStr s') => String.eqb s' s
  | _ => false
  end.

(** ** Exceptions *)

(** What a [catch (err)] clause can receive: an [Error] object, which the
    handlers tell apart with [err instanceof Error] and whose [message]
    they read, or any other thrown or rejected value. *)
Inductive thrown : Type :=
  | ErrorObject (message : string)
  | OtherValue (v : jsval).

Definition Throws (A : Type) : Type := (thrown + A)%type.

Definition ret {A : Type} (a : A) : Throws A := inr a.
Definition throw {A : Type} (e : thrown) : Throws A := inl e.
Definition bind {A B : Type} (c : Throws A) (k : A -> Throws B) : Throws B :=
  match c with
  | inl e => inl e
  | inr a => k a
  end.

(** [try { c } catch (err) { h err }]. *)
Definition try_catch {A : Type} (c : Throws A) (h : thrown -> A) : A :=
  match c with
  | inl e => h e
  | inr a => a
  end.

Declare Scope js_scope.
Delimit Scope js_scope with js.
Notation "'let*' x ':=' c 'in' k" := (bind c (fun x => k))
  (at level 10, x name, c at level 100, k at level 200) : js_scope.

(** [v.k]: reading a property of [null] or [undefined] throws a TypeError;
    a primitive or an array has none of the property names used here. *)
Definition get (v : jsval) (k : string) : Throws jsval :=
  match v with
  | None | Some JNull =>
      throw (ErrorObject ("Cannot read properties of " ++
                          (if v is None then "undefined" else "null") ++
                          " (reading '" ++ k ++ "')"))
  | Some (JObj o) => ret (assoc k o)
  | Some _ => ret undefined
  end.

(** ** The platform: bcryptjs, JSON, Date *)

Class Platform : Type := {
  (** [compareSync(s, hash)] of bcryptjs on two strings. *)
  compareSync : string -> string -> bool;
  (** [JSON.parse(text)], also behind [request.json()]; throws a
      SyntaxError on a text that is not JSON. *)
  JSON_parse : string -> Throws json;
  (** [new Date(t).toISOString()]. *)
  toISOString : Z -> string;
  (** [Date.parse(s)]: the time value, [None] for NaN. *)
  Date_parse : string -> option Z;
  (** The string an array or an object converts to when it is given to the
      [Date] constructor; the conversion throws a TypeError for an object
      that carries a non-callable [toString] of its own. *)
  ToPrimitive : json -> Throws string
}.

(** ** interfaces.ts *)

Record LoginToken : Type := {
  token : string;
  expires : string
}.

Record User : Type := {
  id : string;
  fullName : string;
  email : string;
  username : string;
  password : string;
  tokens : list LoginToken
}.

(** What [JSON.stringify] writes for a value of these types: every own
    property, in insertion order. *)
Definition LoginToken_json (t : LoginToken) : json :=
  JObj [("token", JStr (token t)); ("expires", JStr (expires t))].

Definition User_json (u : User) : json :=
  JObj [("id", JStr (id u)); ("fullName", JStr (fullName u));
        ("email", JStr (email u)); ("username", JStr (username u));
        ("password", JStr (password u));
        ("tokens", JArr (map LoginToken_json (tokens u)))].

(** ** Responses *)

(** A body written with [JSON.stringify] is kept as the value it denotes. *)
Inductive Body : Type :=
  | Text (s : string)
  | Json (v : json).

Record Response : Type := {
  status : Z;
  body : Body;
  contentType : option string
}.

(** [new Response(JSON.stringify(v), { headers: { 'Content-Type': 'application/json' } })]. *)
Definition json_response (v : json) : Response :=
  {| status := 200; body := Json v; contentType := Some "application/json" |}.

(** The outer [catch (err)] of both handlers. *)
Definition internal_error (err : thrown) : Response :=
  match err with
  | ErrorObject message => {| status := 500; body := Text message; contentType := None |}
  | OtherValue _ => {| status := 500; body := Text "Unknown error"; contentType := None |}
  end.

(** ** Date *)

(** The largest time value of a [Date]. *)
Definition maxTime : Z := 8640000000000000.

Definition TimeClip (n : Z) : option Z :=
  if (Z.abs n <=? maxTime)%Z then Some n else None.

Section Date.
Context `{Platform}.

(** The time value of [new Date(v)]; [None] is an Invalid Date. *)
Definition newDate (v : jsval) : Throws (option Z) :=
  match v with
  | None => ret None
  | Some JNull => ret (Some 0%Z)
  | Some (JBool b) => ret (Some (if b then 1 else 0)%Z)
  | Some (JNum n) => ret (TimeClip n)
  | Some (JStr s) => ret (Date_parse s)
  | Some (JArr _ as o) | Some (JObj _ as o) =>
      (let* s := ToPrimitive o in ret (Date_parse s))%js
  end.
End Date.

(** [d < new Date()] and [d > new Date()] on time values: every comparison
    with an Invalid Date is false. *)
Definition date_lt (d : option Z) (now : Z) : bool :=
  match d with
  | Some t => (t <? now)%Z
  | None => false
  end.

Definition date_gt (d : option Z) (now : Z) : bool :=
  match d with
  | Some t => (now <? t)%Z
  | None => false
  end.

(** ** util/fakeDb.ts *)

Definition msPerDay : Z := 86400000.

Section FakeDb.
Context `{Platform}.

(** [today] is the instant the module is loaded at.  The edge runtime
    keeps UTC, where [setDate(getDate() + 30)] moves a date on by thirty
    days to the millisecond. *)
Definition futureDate (today : Z) : Z := (today + 30 * msPerDay)%Z.

(** The record the module is loaded with. *)
Definition userData (today : Z) : User :=
  {| id := "szbxTRMAbSaCMxdmk7AMbIfSCO";
     fullName := "Joe Blow";
     email := "joeblow@example.com";
     username := "joeblow";
     password := "$2a$12$PUnDAFhNom/em/8nYc4kdOvEgUpYSA2aTcJ0B83qR0LQvG55.Z/de";
     tokens :=
       [ {| token := "7XOOBmzLlLlc7fZOk7KyuVFvxnSooVHNV7N4Yh7cdc4NP5bLZZaPMtDV7jPKxHp3HZ51Kh64W4d6wcAuJvHoqhg3TWHaV18zI2szBDLAiwKVEVtRqMeHHn8z3HbpYg5z";
            expires := toISOString (futureDate today) |} ] |}.

(** [store] is the module-level [userData] as the call finds it: the one
    piece of state of the server, passed explicitly.  The promise settles
    in a timer callback; [now] is what [new Date()] reads there.  A
    rejection carries [false]. *)
Definition fakeDb (store : User) (now : Z) (id_ : jsval) : Throws User :=
  if strictEq id_ (id store)
     || strictEq id_ (username store)
     || strictEq id_ (email store)
     || existsb (fun token_ =>
                   strictEq id_ (token token_)
                   && date_gt (Date_parse (expires token_)) now)
                (tokens store)
  then ret store
  else throw (OtherValue (Some (JBool false))).
End FakeDb.

(** ** util/sanitizeUser.ts *)

(** [{ ...user, password: '', tokens: [] }]: the spread copies the six
    properties, the two that follow overwrite theirs in place. *)
Definition sanitizeUser (user : User) : User :=
  {| id := id user;
     fullName := fullName user;
     email := email user;
     username := username user;
     password := "";
     tokens := [] |}.

(** ** pages/api/auth/login.ts *)

Module login.
Section Handler.
Context `{Platform}.
Variable store : User.

Definition unauth : Response :=
  {| status := 401; body := Text "Unauthorized"; contentType := None |}.

(** bcryptjs refuses anything but two strings:
    [throw Error("Illegal arguments: " + typeof s + ", " + typeof hash)]. *)
Definition compare_password (s : jsval) (hash : string) : Throws bool :=
  match s with
  | Some (JStr p) => ret (compareSync p hash)
  | _ => throw (ErrorObject ("Illegal arguments: " ++ typeof s ++ ", string"))
  end.

(** [body] is the text of the POST request; [now] is the clock reading
    inside [fakeDb].  [data.username] is read inside the inner [try], so
    a [null] body ends in its [catch]. *)
Definition handler (now : Z) (body : string) : Response :=
  try_catch
    (let* data := JSON_parse body in
     match (let* id_ := get (Some data) "username" in fakeDb store now id_) with
     | inl _ => ret unauth
     | inr user =>
         (* [!user] is false: a resolved user is an object *)
         let* password_ := get (Some data) "password" in
         let* ok := compare_password password_ (password user) in
         if negb ok then ret unauth else
         let token_ := tokens user !! 0%nat in
         ret (json_response
                (JObj (("user", User_json (sanitizeUser user))
                       :: match token_ with
                          | Some t => [("token", LoginToken_json t)]
                          | None => []   (* an undefined property is not written *)
                          end)))
     end)%js
    internal_error.
End Handler.
End login.

(** ** pages/api/auth/me.ts *)

Module me.
Section Handler.
Context `{Platform}.
Variable store : User.

Definition unauth : Response :=
  {| status := 401; body := Text "Unauthorized"; contentType := None |}.

(** [cookie] is what [cookie.parse] holds under the auth cookie's key,
    [None] when the header has no such cookie.  [now] is the clock at the
    expiry check of the cookie, [now'] the later reading inside [fakeDb]. *)
Definition handler (now now' : Z) (cookie : option string) : Response :=
  try_catch
    (match cookie with
     | None => ret unauth
     | Some text =>
         if String.eqb text "" then ret unauth else
         let* cookieData := JSON_parse text in
         let* token_ := get (Some cookieData) "token" in
         if negb (truthy token_) then ret unauth else
         let* token_token := get token_ "token" in
         if negb (truthy token_token) then ret unauth else
         let* token_expires := get token_ "expires" in
         if negb (truthy token_expires) then ret unauth else
         let* expires_ := newDate token_expires in
         if date_lt expires_ now then ret unauth else
         match fakeDb store now' token_token with
         | inl _ => ret unauth
         | inr user =>
             (* [!user] is false: a resolved user is an object *)
             ret (json_response (User_json (sanitizeUser user)))
         end
     end)%js
    internal_error.
End Handler.
End me.

(** ** pages/api/auth/logout.ts *)

Module logout.
(** The body only arms a timer; the [Response] built in its callback is
    the callback's return value and is dropped, and the handler itself
    returns nothing.  The user record is not touched. *)
Definition handler : option Response := None.
End logout.

(** ** The server as a whole *)

(** One request, with the clock readings its handler takes. *)
Inductive Request : Type :=
  | POST_login (now : Z) (body : string)
  | GET_me (now now' : Z) (cookie : option string)
  | GET_logout.

Section Server.
Context `{Platform}.

(** No handler assigns to [userData] or to one of its properties, so a
    request hands on the record it found. *)
Definition serve (store : User) (r : Request) : option Response * User :=
  match r with
  | POST_login now body => (Some (login.handler store now body), store)
  | GET_me now now' cookie => (Some (me.handler store now now' cookie), store)
  | GET_logout => (logout.handler, store)
  end.

(** The responses to a sequence of requests, and the store they leave. *)
Fixpoint run (store : User) (rs : list Request) : list (option Response) * User :=
  match rs with
  | [] => ([], store)
  | r :: rs' =>
      let (resp, store') := serve store r in
      let (resps, store'') := run store' rs' in
      (resp :: resps, store'')
  end.
End Server.

(** ** Vocabulary of the statements *)

(** The instant a stored token expires at, as [fakeDb] reads it. *)
Definition expiresAt `{Platform} (t : LoginToken) (E : Z) : Prop :=
  Date_parse (expires t) = Some E.

(** [v.k] where it cannot throw: [undefined] on anything but an object. *)
Definition prop (v : jsval) (k : string) : jsval :=
  match v with
  | Some (JObj o) => assoc k o
  | _ => None
  end.

(** A property of the object a JSON response carries. *)
Definition response_prop (r : Response) (k : string) : jsval :=
  match body r with
  | Json (JObj o) => assoc k o
  | _ => None
  end.

(** The live tokens: some stored token has this string and expires later
    than [now]. *)
Definition live_token `{Platform} (store : User) (now : Z) (s : string) : Prop :=
  exists t E, In t (tokens store) /\ token t = s /\ expiresAt t E /\ (now < E)%Z.

(** ** A reference platform

    A small executable stand-in for the three libraries, on which the
    theorems below are run at concrete requests.  It covers the fragment
    the demo uses: ISO instants as [toISOString] writes them, JSON with
    integer numbers, and the one fact about bcrypt the demo rests on. *)

Module Reference.
Local Open Scope Z_scope.

(** *** Date *)

(** Days since the epoch to year, month, day of the proleptic Gregorian
    calendar, over 400-year eras that start on a first of March. *)
Definition civil_from_days (days : Z) : Z * Z * Z :=
  let z := days + 719468 in
  let era := z / 146097 in
  let doe := z - era * 146097 in
  let yoe := (doe - doe / 1460 + doe / 36524 - doe / 146096) / 365 in
  let doy := doe - (365 * yoe + yoe / 4 - yoe / 100) in
  let mp := (5 * doy + 2) / 153 in
  let d := doy - (153 * mp + 2) / 5 + 1 in
  let m := if mp <? 10 then mp + 3 else mp - 9 in
  (yoe + era * 400 + (if m <=? 2 then 1 else 0), m, d).

Definition days_from_civil (y m d : Z) : Z :=
  let y' := if m <=? 2 then y - 1 else y in
  let era := y' / 400 in
  let yoe := y' - era * 400 in
  let doy := (153 * (if 2 <? m then m - 3 else m + 9) + 2) / 5 + d - 1 in
  era * 146097 + (yoe * 365 + yoe / 4 - yoe / 100 + doy) - 719468.

Definition digit (n : Z) : ascii := ascii_of_nat (48 + Z.to_nat (n mod 10)).

(** [n] in [width] decimal digits, zero-padded. *)
Fixpoint digits (width : nat) (n : Z) : string :=
  match width with
  | O => ""
  | S w => digits w (n / 10) +:+ String (digit n) ""
  end.

Definition iso_string (t : Z) : string :=
  let '(y, m, d) := civil_from_days (t / 86400000) in
  let ms := t mod 86400000 in
  (if (0 <=? y) && (y <=? 9999) then digits 4 y
   else (if y <? 0 then "-" else "+") +:+ digits 6 (Z.abs y))
  +:+ "-" +:+ digits 2 m +:+ "-" +:+ digits 2 d
  +:+ "T" +:+ digits 2 (ms / 3600000)
  +:+ ":" +:+ digits 2 (ms / 60000 mod 60)
  +:+ ":" +:+ digits 2 (ms / 1000 mod 60)
  +:+ "." +:+ digits 3 (ms mod 1000) +:+ "Z".

Definition digit_value (c : ascii) : option Z :=
  let n := Z.of_nat (nat_of_ascii c) in
  if (48 <=? n) && (n <=? 57) then Some (n - 48) else None.

(** The number a non-empty run of decimal digits denotes. *)
Fixpoint number_of (acc : Z) (s : string) : option Z :=
  match s with
  | "" => Some acc
  | String c s' =>
      match digit_value c with
      | Some v => number_of (10 * acc + v) s'
      | None => None
      end
  end.

Definition field (s : string) (start len : nat) : option Z :=
  let f := substring start len s in
  if (String.length f =? len)%nat then number_of 0 f else None.

Definition mark (s : string) (at_ : nat) (c : ascii) : bool :=
  match String.get at_ s with
  | Some c' => Ascii.eqb c c'
  | None => false
  end.

(** Reads [YYYY-MM-DDTHH:mm:ss.sssZ]; anything else is NaN. *)
Definition iso_parse (s : string) : option Z :=
  if (String.length s =? 24)%nat
     && mark s 4 "-" && mark s 7 "-" && mark s 10 "T" && mark s 13 ":"
     && mark s 16 ":" && mark s 19 "." && mark s 23 "Z"
  then
    match field s 0 4, field s 5 2, field s 8 2,
          field s 11 2, field s 14 2, field s 17 2, field s 20 3 with
    | Some y, Some m, Some d, Some hh, Some mm, Some ss, Some ms =>
        if (1 <=? m) && (m <=? 12) && (1 <=? d) && (hh <=? 23)
           && (mm <=? 59) && (ss <=? 59)
           && bool_decide (civil_from_days (days_from_civil y m d) = (y, m, d))
        then Some (days_from_civil y m d * 86400000
                   + hh * 3600000 + mm * 60000 + ss * 1000 + ms)
        else None
    | _, _, _, _, _, _, _ => None
    end
  else None.
(** *** JSON *)

Definition quote : ascii := "034".
Definition backslash : ascii := "092".

Definition is_space (c : ascii) : bool :=
  Ascii.eqb c " " || Ascii.eqb c "009" || Ascii.eqb c "010" || Ascii.eqb c "013".

Fixpoint skip_space (cs : list ascii) : list ascii :=
  match cs with
  | c :: cs' => if is_space c then skip_space cs' else cs
  | [] => []
  end.

(** The characters of a string literal after its opening quote. *)
Fixpoint read_string (cs : list ascii) : option (string * list ascii) :=
  match cs with
  | [] => None
  | c :: cs' =>
      if Ascii.eqb c quote then Some ("", cs')
      else if Ascii.eqb c backslash then
        match cs' with
        | e :: cs'' =>
            let plain :=
              if Ascii.eqb e quote || Ascii.eqb e backslash || Ascii.eqb e "/"
              then Some e
              else if Ascii.eqb e "n" then Some "010"%char
              else if Ascii.eqb e "t" then Some "009"%char
              else if Ascii.eqb e "r" then Some "013"%char
              else None in
            match plain, read_string cs'' with
            | Some a, Some (s, rest) => Some (String a s, rest)
            | _, _ => None
            end
        | [] => None
        end
      else if (nat_of_ascii c <? 32)%nat then None
      else match read_string cs' with
           | Some (s, rest) => Some (String c s, rest)
           | None => None
           end
  end.

Fixpoint read_digits (acc : Z) (cs : list ascii) : Z * list ascii :=
  match cs with
  | c :: cs' =>
      match digit_value c with
      | Some v => read_digits (10 * acc + v) cs'
      | None => (acc, cs)
      end
  | [] => (acc, [])
  end.

Definition starts_number (cs : list ascii) : bool :=
  match cs with
  | c :: _ => bool_decide (is_Some (digit_value c))
  | [] => false
  end.

(** An object keeps a key where it first stood and the value given last. *)
Fixpoint set_prop (k : string) (v : json) (o : list (string * json))
  : list (string * json) :=
  match o with
  | [] => [(k, v)]
  | (k', v') :: o' =>
      if String.eqb k k' then (k, v) :: o' else (k', v') :: set_prop k v o'
  end.

Fixpoint read_value (fuel : nat) (cs : list ascii) : option (json * list ascii) :=
  match fuel with
  | O => None
  | S fuel' =>
      match skip_space cs with
      | "n" :: "u" :: "l" :: "l" :: rest => Some (JNull, rest)
      | "t" :: "r" :: "u" :: "e" :: rest => Some (JBool true, rest)
      | "f" :: "a" :: "l" :: "s" :: "e" :: rest => Some (JBool false, rest)
      | "034" :: rest =>
          match read_string rest with
          | Some (s, rest') => Some (JStr s, rest')
          | None => None
          end
      | "[" :: rest =>
          match skip_space rest with
          | "]" :: rest' => Some (JArr [], rest')
          | _ => read_items fuel' rest []
          end
      | "{" :: rest =>
          match skip_space rest with
          | "}" :: rest' => Some (JObj [], rest')
          | _ => read_members fuel' rest []
          end
      | "-" :: rest =>
          if starts_number rest
          then let (n, rest') := read_digits 0 rest in Some (JNum (- n), rest')
          else None
      | rest =>
          if starts_number rest
          then let (n, rest') := read_digits 0 rest in Some (JNum n, rest')
          else None
      end%char
  end
with read_items (fuel : nat) (cs : list ascii) (seen : list json)
  : option (json * list ascii) :=
  match fuel with
  | O => None
  | S fuel' =>
      match read_value fuel' cs with
      | Some (v, rest) =>
          match skip_space rest with
          | "," :: rest' => read_items fuel' rest' (v :: seen)
          | "]" :: rest' => Some (JArr (rev (v :: seen)), rest')
          | _ => None
          end%char
      | None => None
      end
  end
with read_members (fuel : nat) (cs : list ascii) (seen : list (string * json))
  : option (json * list ascii) :=
  match fuel with
  | O => None
  | S fuel' =>
      match skip_space cs with
      | "034" :: rest =>
          match read_string rest with
          | Some (k, rest') =>
              match skip_space rest' with
              | ":" :: rest'' =>
                  match read_value fuel' rest'' with
                  | Some (v, rest3) =>
                      match skip_space rest3 with
                      | "," :: rest4 => read_members fuel' rest4 (set_prop k v seen)
                      | "}" :: rest4 => Some (JObj (set_prop k v seen), rest4)
                      | _ => None
                      end
                  | None => None
                  end
              | _ => None
              end
          | None => None
          end
      | _ => None
      end%char
  end.

(** Integers only; a fraction, an exponent or a [\u] escape is refused. *)
Definition json_parse (text : string) : Throws json :=
  let cs := list_ascii_of_string text in
  match read_value (S (length cs)) cs with
  | Some (v, rest) =>
      match skip_space rest with
      | [] => ret v
      | _ => throw (ErrorObject "Unexpected non-whitespace character after JSON")
      end
  | None => throw (ErrorObject "Unexpected token in JSON")
  end.

Fixpoint escape (s : string) : string :=
  match s with
  | "" => ""
  | String c s' =>
      (if Ascii.eqb c quote || Ascii.eqb c backslash
       then String backslash (String c "")
       else String c "") +:+ escape s'
  end.

Definition quoted (s : string) : string :=
  String quote (escape s) +:+ String quote "".

Definition decimal (n : Z) : string :=
  if n <? 0 then "-" +:+ pretty (Z.abs n) else pretty n.

Fixpoint json_stringify (v : json) : string :=
  match v with
  | JNull => "null"
  | JBool b => if b then "true" else "false"
  | JNum n => decimal n
  | JStr s => quoted s
  | JArr items =>
      "[" +:+ (fix go (l : list json) : string :=
                 match l with
                 | [] => ""
                 | [x] => json_stringify x
                 | x :: l' => json_stringify x +:+ "," +:+ go l'
                 end) items +:+ "]"
  | JObj props =>
      "{" +:+ (fix go (l : list (string * json)) : string :=
                 match l with
                 | [] => ""
                 | [(k, x)] => quoted k +:+ ":" +:+ json_stringify x
                 | (k, x) :: l' =>
                     quoted k +:+ ":" +:+ json_stringify x +:+ "," +:+ go l'
                 end) props +:+ "}"
  end.

(** *** The Date constructor on arrays and objects *)

(** [String(v)] as [Array.prototype.join] and the default [toString] of
    an object give it. *)
Fixpoint to_string (v : json) : Throws string :=
  match v with
  | JNull => ret "null"
  | JBool b => ret (if b then "true" else "false")
  | JNum n => ret (decimal n)
  | JStr s => ret s
  | JArr items =>
      (fix join (l : list json) : Throws string :=
         match l with
         | [] => ret ""
         | x :: l' =>
             let* a := match x with JNull => ret "" | _ => to_string x end in
             match l' with
             | [] => ret a
             | _ => let* b := join l' in ret (a +:+ "," +:+ b)
             end
         end%js) items
  | JObj props =>
      match assoc "toString" props with
      | Some _ => throw (ErrorObject "Cannot convert object to primitive value")
      | None => ret "[object Object]"
      end
  end.

(** *** bcryptjs *)

(** The seeded digest is the bcrypt hash of the password the login form
    is pre-filled with; no other pair is taken to verify. *)
Definition bcrypt_compare (s hash : string) : bool :=
  String.eqb s "TestPassword4$"
  && String.eqb hash "$2a$12$PUnDAFhNom/em/8nYc4kdOvEgUpYSA2aTcJ0B83qR0LQvG55.Z/de".

#[export] Instance platform : Platform :=
  {| compareSync := bcrypt_compare;
     JSON_parse := json_parse;
     toISOString := iso_string;
     Date_parse := iso_parse;
     ToPrimitive := to_string |}.
End Reference.

(** ** Concrete requests *)

Module Scenario.
Import Reference.

(** The instant the server was started at: 2023-11-14T22:13:20Z. *)
Definition started : Z := 1700000000000.

Definition store : User := userData started.

Definition seededToken : string :=
  "7XOOBmzLlLlc7fZOk7KyuVFvxnSooVHNV7N4Yh7cdc4NP5bLZZaPMtDV7jPKxHp3HZ51Kh64W4d6wcAuJvHoqhg3TWHaV18zI2szBDLAiwKVEVtRqMeHHn8z3HbpYg5z".

(** The stored token, with the expiry the reference platform writes. *)
Definition seeded : LoginToken :=
  {| token := seededToken; expires := "2023-12-14T22:13:20.000Z" |}.

(** The body the login form posts, and what it parses to. *)
Definition credentials (username_ password_ : string) : string :=
  json_stringify (JObj [("username", JStr username_); ("password", JStr password_)]).

Definition loginBody : json :=
  JObj [("username", JStr "joeblow"); ("password", JStr "TestPassword4$")].

(** The object a successful login answers with, and the cookie the
    client keeps of it. *)
Definition loginResponse : json :=
  JObj [("user", User_json (sanitizeUser store));
        ("token", LoginToken_json seeded)].

Definition loginCookie : string := json_stringify loginResponse.

(** A cookie without a token, and one with a token nobody was given. *)
Definition emptyCookie : string := json_stringify (JObj []).

Definition forgedCookie : string :=
  json_stringify
    (JObj [("token", JObj [("token", JStr "forged");
                           ("expires", JStr "2999-01-01T00:00:00.000Z")])]).

(** A cookie whose expiry is an object the [Date] constructor cannot
    convert: it has a [toString] of its own that is no function. *)
Definition unconvertible : json :=
  JObj [("token", JObj [("token", JStr "forged");
                        ("expires", JObj [("toString", JNum 1)])])].

Definition unconvertibleCookie : string := json_stringify unconvertible.

(** One second into the session, and one second past its expiry. *)
Definition early : Z := started + 1000.
Definition late : Z := futureDate started + 1000.
End Scenario.

(** * The session service the specification describes

    The repository has no token store, no refresh and no revocation: its
    three endpoints are all there is.  The part of the specification that
    goes beyond them is modelled here from its text. *)

Module SessionCore.

(** Modelled from the spec: the error taxonomy of section 7; the
    repository only has HTTP status codes. *)
Inductive AuthError : Type :=
  | InvalidCredentials
  | NotFound
  | TokenNotFound
  | TokenExpired
  | UserNotFound
  | TokenCollision.

(** Modelled from the spec: [UserRecord] of section 3, missing from the
    repository, whose [User] also carries the token list. *)
Record UserRecord : Type := {
  id : string;
  username : string;
  email : string;
  passwordDigest : string;
  displayName : string
}.

(** Modelled from the spec: [Session] of section 3, missing from the
    repository. *)
Record Session : Type := {
  token : string;
  userId : string;
  issuedAt : Z;
  expiresAt : Z
}.

(** Modelled from the spec: the Token Store of section 3, a mapping from
    token to session with a secondary index from user id to the set of
    the user's tokens.  The repository has no such store. *)
Record TokenStore : Type := {
  primary : gmap string Session;
  byUser : gmap string (gset string)
}.

(** Modelled from the spec: the secondary index read at one user, the
    empty set for a user without sessions. *)
Definition tokensOf (ts : TokenStore) (user : string) : gset string :=
  default ∅ (byUser ts !! user).

(** Modelled from the spec: [get] of section 4.2, a lookup without side
    effects; the repository has no token store. *)
Definition get (ts : TokenStore) (tok : string) : option Session :=
  primary ts !! tok.

(** Modelled from the spec: [put] of section 4.2.  It writes both
    indices, and answers [TokenCollision] when its pre-insert existence
    check finds the token. *)
Definition put (ts : TokenStore) (s : Session) : AuthError + TokenStore :=
  match primary ts !! token s with
  | Some _ => inl TokenCollision
  | None =>
      inr {| primary := <[token s := s]> (primary ts);
             byUser := <[userId s := {[token s]} ∪ tokensOf ts (userId s)]> (byUser ts) |}
  end.

(** Modelled from the spec: [delete] of section 4.2.  It clears both
    indices and does nothing for an absent token. *)
Definition delete (ts : TokenStore) (tok : string) : TokenStore :=
  match primary ts !! tok with
  | None => ts
  | Some s =>
      {| primary := base.delete tok (primary ts);
         byUser := <[userId s := tokensOf ts (userId s) ∖ {[tok]}]> (byUser ts) |}
  end.

Section SessionManager.
(** The User Directory, read-only, by user id. *)
Variable directory : gmap string UserRecord.
(** The lifetime of a session, in the unit of the clock. *)
Variable sessionTTL : Z.

(** Modelled from the spec: [findById] of section 4.4, a pure lookup. *)
Definition findById (user : string) : option UserRecord := directory !! user.

(** Modelled from the spec: [validate] of section 4.3.  An absent
    token is [TokenNotFound]; a session with [now >= expiresAt] is
    [TokenExpired] and is evicted; otherwise the user is resolved in
    the directory, [UserNotFound] when it is gone. *)
Definition validate (ts : TokenStore) (now : Z) (tok : string)
  : (AuthError + UserRecord) * TokenStore :=
  match get ts tok with
  | None => (inl TokenNotFound, ts)
  | Some s =>
      if (expiresAt s <=? now)%Z then (inl TokenExpired, delete ts tok)
      else match findById (userId s) with
           | None => (inl UserNotFound, ts)
           | Some u => (inr u, ts)
           end
  end.

(** Modelled from the spec: what [refresh] returns, the new token with
    its expiry (section 6) and the user (section 4.3). *)
Record Refreshed : Type := {
  newToken : string;
  newExpiresAt : Z;
  user : UserRecord
}.

(** Modelled from the spec: [refresh] of section 4.3.  It validates the
    token, with the failures of [validate]; then it deletes the old
    token and stores a session under the token [fresh] drawn from the
    entropy source, with the same user and the expiry of a new login,
    [now + sessionTTL].  The replacement is one step: when [put]
    refuses, the store is as validation left it. *)
Definition refresh (ts : TokenStore) (now : Z) (fresh tok : string)
  : (AuthError + Refreshed) * TokenStore :=
  match get ts tok with
  | None => (inl TokenNotFound, ts)
  | Some s =>
      match validate ts now tok with
      | (inl e, ts') => (inl e, ts')
      | (inr u, ts') =>
          let s' := {| token := fresh; userId := userId s;
                       issuedAt := now; expiresAt := (now + sessionTTL)%Z |} in
          match put (delete ts' tok) s' with
          | inl e => (inl e, ts')
          | inr ts'' =>
              (inr {| newToken := fresh; newExpiresAt := expiresAt s'; user := u |},
               ts'')
          end
      end
  end.
End SessionManager.
End SessionCore.

(** A store with one session, and the directory that knows its user. *)
Module RefreshScenario.
Import SessionCore.

Definition joe : UserRecord :=
  {| id := "u1"; username := "joeblow"; email := "joeblow@example.com";
     passwordDigest := "digest"; displayName := "Joe Blow" |}.

Definition directory : gmap string UserRecord := {[ "u1" := joe ]}.

Definition sessionTTL : Z := 30 * 86400000.

Definition session : Session :=
  {| token := "first"; userId := "u1"; issuedAt := 0; expiresAt := sessionTTL |}.

Definition store : TokenStore :=
  {| primary := {[ "first" := session ]};
     byUser := {[ "u1" := {[ "first" ]} ]} |}.

(** The store after the session is refreshed at instant 1000 into the
    token [second]. *)
Definition refreshed : (AuthError + Refreshed) * TokenStore :=
  refresh directory sessionTTL store 1000 "second" "first".
End RefreshScenario.

(** * The client: hooks/useAuth.tsx and the pages

    The hook talks to React ([setUser]), to the cookie jar of cookies-next
    ([setCookie], [deleteCookie]) and to the console.  A call of one of
    its functions is embedded as the list of these calls it makes, in
    order, with what it returns or throws; the calls themselves are taken
    to return normally. *)

Inductive Effect : Type :=
  | setUser (user : jsval)
    (** [setCookie(COOKIE_KEY, data, { path: '/', expires })], with the
        time value of [expires], [None] for an Invalid Date *)
  | setCookie (data : json) (expires : option Z)
  | deleteCookie
  | console_log (message : string)
    (** [console.error] of a response body read with [result.text()] *)
  | console_error_text (text : Body)
    (** [console.error] of a caught value *)
  | console_error (err : thrown).

(** The calls made so far, and the value returned or thrown. *)
Definition Client (A : Type) : Type := (list Effect * Throws A)%type.

Definition cret {A : Type} (a : A) : Client A := ([], ret a).
Definition cthrow {A : Type} (e : thrown) : Client A := ([], throw e).
Definition emit (f : Effect) : Client unit := ([f], ret tt).
Definition lift {A : Type} (c : Throws A) : Client A := ([], c).
Definition cbind {A B : Type} (c : Client A) (k : A -> Client B) : Client B :=
  match c with
  | (fs, inl e) => (fs, inl e)
  | (fs, inr a) => let (fs', r) := k a in ((fs ++ fs')%list, r)
  end.

(** [try { c } catch (err) { h err }]: the calls made before the throw
    stay made. *)
Definition ctry {A : Type} (c : Client A) (h : thrown -> Client A) : Client A :=
  match c with
  | (fs, inl e) => let (fs', r) := h e in ((fs ++ fs')%list, r)
  | (fs, inr a) => (fs, inr a)
  end.

Declare Scope client_scope.
Delimit Scope client_scope with client.
Notation "'let+' x ':=' c 'in' k" := (cbind c (fun x => k))
  (at level 10, x name, c at level 100, k at level 200) : client_scope.
Notation "c ;; k" := (cbind c (fun _ => k))
  (at level 100, k at level 200, only parsing, right associativity) : client_scope.

(** [null], the state of a user who is not logged in. *)
Definition null : jsval := Some JNull.

(** [result.ok]. *)
Definition result_ok (result : Response) : bool :=
  (200 <=? status result)%Z && (status result <=? 299)%Z.

(** [object.key = value] in a module, which is strict code: a property of
    an object is set in place or added, a primitive refuses.  An array
    takes the property, which neither [JSON.stringify] nor a read of
    [token] sees. *)
Definition setProp (k : string) (v : json) (o : list (string * json))
  : list (string * json) :=
  if assoc k o is Some _
  then map (fun kv => if String.eqb (fst kv) k then (k, v) else kv) o
  else (o ++ [(k, v)])%list.

Definition assign (object : json) (k : string) (v : json) : Throws json :=
  match object with
  | JObj o => ret (JObj (setProp k v o))
  | JArr items => ret (JArr items)
  | _ => throw (ErrorObject ("Cannot create property '" ++ k ++ "'"))
  end.

Module useAuth.
Section Provider.
Context `{Platform}.

(** [await result.json()]. *)
Definition result_json (result : Response) : Throws json :=
  match body result with
  | Json v => ret v
  | Text s => JSON_parse s
  end.

(** Store login token / user data in cookie. *)
Definition setLoginCookie (data : json) : Client unit :=
  (let+ token_ := lift (get (Some data) "token") in
   let+ token_expires := lift (get token_ "expires") in
   let+ expires_ := lift (newDate token_expires) in
   emit (setCookie data expires_))%client.

(** Delete login cookie. *)
Definition deleteLoginCookie : Client unit := emit deleteCookie.

(** [result] is what [fetch("/api/auth/login", ...)] settles to. *)
Definition login (result : Throws Response) : Client bool :=
  (let+ result_ := lift result in
   if result_ok result_ then
     let+ data := lift (result_json result_) in
     let+ user_ := lift (get (Some data) "user") in
     emit (setUser user_) ;;
     setLoginCookie data ;;
     cret true
   else
     let errMess :=
       if (status result_ =? 401)%Z
       then "Invalid username or password" else "Login failed" in
     emit (console_error_text (body result_)) ;;
     cthrow (ErrorObject errMess))%client.

(** [result] is what [fetch('/api/auth/logout')] settles to. *)
Definition logout (result : Throws Response) : Client unit :=
  (let+ result_ := lift result in
   if negb (result_ok result_) then cthrow (ErrorObject "Log out failed")
   else
     deleteLoginCookie ;;
     emit (setUser null) ;;
     cret tt)%client.

(** [result] is what [fetch("/api/auth/me")] settles to. *)
Definition fetchUser (cookieParsed : json) (result : Throws Response) : Client unit :=
  ctry
    (let+ result_ := lift result in
     if result_ok result_ then
       let+ user_ := lift (result_json result_) in
       emit (console_log "Done fetching user!") ;;
       emit (setUser (Some user_)) ;;
       let+ cookieParsed' := lift (assign cookieParsed "user" user_) in
       setLoginCookie cookieParsed'
     else
       emit (setUser null) ;;
       deleteLoginCookie)%client
    (fun err => emit (console_error err)).

(** [cookieData] is what [getCookie] read when the component rendered,
    [None] when it is not a string.  [fetchUser] is not awaited, and it
    catches what it throws. *)
Definition loadUser (cookieData : option string) (result : Throws Response)
  : Client unit :=
  (emit (console_log "Pulling user data...") ;;
   match cookieData with
   | Some text =>
       let+ cookieParsed := lift (JSON_parse text) in
       let+ user_ := lift (get (Some cookieParsed) "user") in
       emit (setUser user_) ;;
       fetchUser cookieParsed result
   | None => emit (setUser null)
   end)%client.
End Provider.
End useAuth.

(** The [user] state after a list of calls: the last [setUser] wins. *)
Fixpoint user_after (user : jsval) (fs : list Effect) : jsval :=
  match fs with
  | [] => user
  | setUser user' :: fs' => user_after user' fs'
  | _ :: fs' => user_after user fs'
  end.

(** ** components/Layout *)

Inductive View : Type :=
  | LoginWrapper
  | children.

(** [requireAuth] defaults to [false]. *)
Definition Layout (requireAuth : option bool) (user : jsval) : View :=
  let requireAuth := default false requireAuth in
  if requireAuth && negb (truthy user) then LoginWrapper else children.

(** ** pages/protected.tsx and pages/index.tsx *)

Definition ProtectedPage (user : jsval) : View := Layout (Some true) user.

Definition Home (user : jsval) : View := Layout None user.

(** ** More concrete requests *)

Module Visits.
Import Reference Scenario.

(** A cookie that names the user instead of a token. *)
Definition identifierCookie : string :=
  json_stringify
    (JObj [("token", JObj [("token", JStr "joeblow");
                           ("expires", JStr "2999-01-01T00:00:00.000Z")])]).

(** The stored token under an expiry that is no date. *)
Definition undated : json :=
  JObj [("token", JObj [("token", JStr seededToken); ("expires", JStr "never")])].

Definition undatedCookie : string := json_stringify undated.

(** The stored token beside a user object of the client's own making. *)
Definition forgedUser : json :=
  JObj [("id", JStr "root"); ("fullName", JStr "Administrator")].

Definition forgedUserCookie : string :=
  json_stringify
    (JObj [("user", forgedUser); ("token", LoginToken_json seeded)]).

(** A login body without a password. *)
Definition usernameOnly (username_ : string) : string :=
  json_stringify (JObj [("username", JStr username_)]).

(** A login body whose username is a number. *)
Definition numericUsername : string :=
  json_stringify (JObj [("username", JNum 7)]).
End Visits.
(** * Properties of the endpoints *)

Section Lookup.
Context `{Platform}.
Implicit Types (store : User) (now : Z) (v : jsval) (s : string).

Lemma strictEq_true v s : strictEq v s = true <-> v = Some (JStr s).
Proof.
  destruct v as [[| | |s'| |]|]; simpl; try (split; congruence).
  rewrite String.eqb_eq. split; congruence.
Qed.

Lemma strictEq_str s s' : strictEq (Some (JStr s)) s' = true <-> s = s'.
Proof. simpl. apply String.eqb_eq. Qed.

Lemma date_gt_true d now : date_gt d now = true <-> exists E, d = Some E /\ (now < E)%Z.
Proof.
  destruct d as [E|]; simpl.
  - rewrite Z.ltb_lt. split; [eauto | intros (E' & [= ->] & ?); done].
  - split; [done | intros (E' & ? & ?); done].
Qed.

(** A promise of [fakeDb] resolves to the stored record or rejects with
    [false]. *)
Lemma fakeDb_settles store now v :
  fakeDb store now v = ret store
  \/ fakeDb store now v = throw (OtherValue (Some (JBool false))).
Proof. unfold fakeDb. destruct (_ || _); auto. Qed.

Lemma fakeDb_resolved store now v user : fakeDb store now v = inr user -> user = store.
Proof. destruct (fakeDb_settles store now v) as [E | E]; rewrite E; unfold ret, throw; congruence. Qed.

Lemma fakeDb_resolves store now s :
  fakeDb store now (Some (JStr s)) = ret store
  <-> s = id store \/ s = username store \/ s = email store \/ live_token store now s.
Proof.
  unfold fakeDb.
  destruct (_ || _) eqn:Hc.
  - split; [intros _ | done].
    rewrite !orb_true_iff, !strictEq_str in Hc.
    destruct Hc as [[[?|?]|?]|Hex]; auto.
    apply existsb_exists in Hex as (t & Hin & Ht).
    rewrite andb_true_iff, strictEq_str, date_gt_true in Ht.
    destruct Ht as (-> & E & HE & Hlt).
    do 3 right. by exists t, E.
  - split; [unfold ret, throw; congruence |].
    rewrite !orb_false_iff in Hc. destruct Hc as (((H1 & H2) & H3) & H4).
    intros [-> | [-> | [-> | (t & E & Hin & <- & HE & Hlt)]]].
    + simpl in H1. by rewrite String.eqb_refl in H1.
    + simpl in H2. by rewrite String.eqb_refl in H2.
    + simpl in H3. by rewrite String.eqb_refl in H3.
    + assert (existsb (fun token_ =>
                strictEq (Some (JStr (token t))) (token token_)
                && date_gt (Date_parse (expires token_)) now) (tokens store) = true) as Hex;
        [| congruence].
      apply existsb_exists. exists t. split; [done |].
      apply andb_true_iff. split; [by apply strictEq_str |].
      apply date_gt_true. by exists E.
Qed.

(** A value that is not a string matches nothing. *)
Lemma fakeDb_not_string store now v :
  (forall s, v <> Some (JStr s)) ->
  fakeDb store now v = throw (OtherValue (Some (JBool false))).
Proof.
  intros Hv. unfold fakeDb.
  assert (forall s, strictEq v s = false) as E.
  { intros s. destruct (strictEq v s) eqn:Es; [| done].
    apply strictEq_true in Es. by destruct (Hv s). }
  rewrite !E. simpl.
  replace (existsb _ _) with false; [done |].
  symmetry. induction (tokens store) as [| t l IH]; simpl; [done |].
  by rewrite E, IH.
Qed.
End Lookup.

Section Login.
Context `{Platform}.
Local Arguments get : simpl never.
Local Arguments fakeDb : simpl never.
Local Arguments login.compare_password : simpl never.
Implicit Types (store : User) (now : Z) (s : string).

(** The login handler after a body that parsed to an object. *)
Lemma login_handler_object store now body o :
  JSON_parse body = ret (JObj o) ->
  login.handler store now body =
    match fakeDb store now (assoc "username" o) with
    | inl _ => login.unauth
    | inr user =>
        match login.compare_password (assoc "password" o) (password user) with
        | inl e => internal_error e
        | inr ok =>
            if ok
            then json_response
                   (JObj (("user", User_json (sanitizeUser user))
                          :: match tokens user !! 0%nat with
                             | Some t => [("token", LoginToken_json t)]
                             | None => []
                             end))
            else login.unauth
        end
    end.
Proof.
  intros Hp. unfold login.handler. rewrite Hp. simpl.
  destruct (fakeDb store now (assoc "username" o)) as [e | user]; simpl; [done |].
  destruct (login.compare_password _ _) as [e | [|]]; done.
Qed.

Lemma get_string_object (data : json) k (v : json) :
  get (Some data) k = ret (Some v) -> exists o, data = JObj o /\ assoc k o = Some v.
Proof.
  destruct data; unfold get, ret, throw; try congruence.
  intros [= E]. eauto.
Qed.

(** C3 (amended): the lookup of an identifier string resolves exactly
    when the string equals the stored user's id, username or email, or
    the string of a stored token that has not expired; on any other
    string it rejects, and a login under that identifier is answered
    401 whatever the password. *)
Theorem credential_lookup_iff store now s :
  (fakeDb store now (Some (JStr s)) = ret store
   <-> s = id store \/ s = username store \/ s = email store
       \/ live_token store now s)
  /\ (~ (s = id store \/ s = username store \/ s = email store
         \/ live_token store now s) ->
      fakeDb store now (Some (JStr s)) = throw (OtherValue (Some (JBool false)))
      /\ forall body data,
           JSON_parse body = ret data ->
           get (Some data) "username" = ret (Some (JStr s)) ->
           login.handler store now body = login.unauth).
Proof.
  split; [apply fakeDb_resolves |].
  intros Hno.
  assert (fakeDb store now (Some (JStr s)) = throw (OtherValue (Some (JBool false)))) as Hrej.
  { destruct (fakeDb_settles store now (Some (JStr s))) as [E | E]; [| done].
    by apply fakeDb_resolves in E. }
  split; [done |].
  intros body data Hp Hu.
  apply get_string_object in Hu as (o & -> & Ho).
  rewrite (login_handler_object _ _ _ _ Hp), Ho, Hrej. done.
Qed.

(** C6: when the password in the body does not verify against the
    stored digest, login answers 401 Unauthorized, with neither token
    nor user, whatever the identifier. *)
Theorem wrong_password_unauthorized store now text data p :
  JSON_parse text = ret data ->
  get (Some data) "password" = ret (Some (JStr p)) ->
  compareSync p (password store) = false ->
  login.handler store now text = login.unauth
  /\ status (login.handler store now text) = 401%Z
  /\ body (login.handler store now text) = Text "Unauthorized"
  /\ response_prop (login.handler store now text) "token" = None
  /\ response_prop (login.handler store now text) "user" = None.
Proof.
  intros Hp Hpw Hcmp.
  apply get_string_object in Hpw as (o & -> & Ho).
  assert (login.handler store now text = login.unauth) as ->; [| done].
  rewrite (login_handler_object _ _ _ _ Hp), Ho.
  destruct (fakeDb store now (assoc "username" o)) as [e | user] eqn:Hdb; [done |].
  apply fakeDb_resolved in Hdb as ->. simpl. by rewrite Hcmp.
Qed.

(** Every login answered 200 is the same response. *)
Lemma login_success store now text :
  status (login.handler store now text) = 200%Z ->
  login.handler store now text =
    json_response
      (JObj (("user", User_json (sanitizeUser store))
             :: match tokens store !! 0%nat with
                | Some t => [("token", LoginToken_json t)]
                | None => []
                end)).
Proof.
  unfold login.handler.
  destruct (JSON_parse text) as [e | data]; simpl; [by destruct e |].
  destruct (get (Some data) "username") as [e | id_]; simpl; [done |].
  destruct (fakeDb store now id_) as [e | user] eqn:Hdb; simpl; [done |].
  apply fakeDb_resolved in Hdb as ->.
  destruct (get (Some data) "password") as [e | pw]; simpl; [by destruct e |].
  destruct (login.compare_password pw (password store)) as [e | [|]]; simpl;
    [by destruct e | done | done].
Qed.

(** C7: two logins that succeed return the same token, the first
    element of the stored token list; none is minted. *)
Theorem login_reuses_seeded_token store now1 body1 now2 body2 :
  status (login.handler store now1 body1) = 200%Z ->
  status (login.handler store now2 body2) = 200%Z ->
  response_prop (login.handler store now1 body1) "token"
  = response_prop (login.handler store now2 body2) "token"
  /\ response_prop (login.handler store now1 body1) "token"
     = LoginToken_json <$> (tokens store !! 0%nat).
Proof.
  intros H1 H2.
  rewrite (login_success _ _ _ H1), (login_success _ _ _ H2).
  split; [done |].
  unfold response_prop. simpl. by destruct (tokens store !! 0%nat).
Qed.
End Login.

Section Me.
Context `{Platform}.
Implicit Types (store : User) (now : Z) (s : string).
Local Arguments get : simpl never.
Local Arguments fakeDb : simpl never.
Local Arguments newDate : simpl never.
Local Arguments login.compare_password : simpl never.

Lemma truthy_str s : truthy (Some (JStr s)) = true <-> s <> "".
Proof.
  simpl. destruct (String.eqb_spec s ""); simpl; split; congruence.
Qed.

(** The last two steps of the handler, reached by a cookie whose token
    object holds two non-empty strings. *)
Lemma get_object_props (tk : json) tt e :
  get (Some tk) "token" = ret (Some (JStr tt)) ->
  get (Some tk) "expires" = ret (Some (JStr e)) ->
  exists o, tk = JObj o
            /\ assoc "token" o = Some (JStr tt)
            /\ assoc "expires" o = Some (JStr e).
Proof.
  intros Htt He.
  apply get_string_object in Htt as (o & -> & Hot).
  apply get_string_object in He as (o' & [= <-] & Hoe).
  eauto.
Qed.

Lemma me_handler_token store now now' text cookieData tk tt e :
  text <> "" ->
  JSON_parse text = ret cookieData ->
  get (Some cookieData) "token" = ret (Some tk) ->
  get (Some tk) "token" = ret (Some (JStr tt)) ->
  get (Some tk) "expires" = ret (Some (JStr e)) ->
  tt <> "" -> e <> "" ->
  me.handler store now now' (Some text) =
    if date_lt (Date_parse e) now then me.unauth
    else match fakeDb store now' (Some (JStr tt)) with
         | inl _ => me.unauth
         | inr user => json_response (User_json (sanitizeUser user))
         end.
Proof.
  intros Htext Hp Htk Htt He Htt' He'.
  destruct (get_object_props _ _ _ Htt He) as (o & -> & Hot & Hoe).
  apply String.eqb_neq in Htext, Htt', He'.
  unfold me.handler. rewrite Htext, Hp. simpl. rewrite Htk. simpl.
  rewrite Hot, Hoe. simpl. rewrite Htt', He'. simpl.
  destruct (date_lt (Date_parse e) now); [done |].
  by destruct (fakeDb store now' (Some (JStr tt))).
Qed.

(** With the same gets but possibly empty strings the handler can only
    stop earlier, at a 401. *)
Lemma me_handler_token_cases store now now' cookie cookieData tk tt e :
  JSON_parse cookie = ret cookieData ->
  get (Some cookieData) "token" = ret (Some tk) ->
  get (Some tk) "token" = ret (Some (JStr tt)) ->
  get (Some tk) "expires" = ret (Some (JStr e)) ->
  me.handler store now now' (Some cookie) = me.unauth
  \/ me.handler store now now' (Some cookie) =
       match fakeDb store now' (Some (JStr tt)) with
       | inl _ => me.unauth
       | inr user => json_response (User_json (sanitizeUser user))
       end.
Proof.
  intros Hp Htk Htt He.
  destruct (String.eqb_spec cookie "") as [-> | Hc]; [by left |].
  destruct (String.eqb_spec tt "") as [-> | Htt'];
    [| destruct (String.eqb_spec e "") as [-> | He']].
  - left. destruct (get_object_props _ _ _ Htt He) as (o & -> & Hot & Hoe).
    apply String.eqb_neq in Hc.
    unfold me.handler. rewrite Hc, Hp. simpl. rewrite Htk. simpl.
    by rewrite Hot.
  - left. destruct (get_object_props _ _ _ Htt He) as (o & -> & Hot & Hoe).
    apply String.eqb_neq in Hc, Htt'.
    unfold me.handler. rewrite Hc, Hp. simpl. rewrite Htk. simpl.
    rewrite Hot, Hoe. simpl. by rewrite Htt'.
  - rewrite (me_handler_token _ _ _ _ _ _ _ _ Hc Hp Htk Htt He Htt' He').
    destruct (date_lt (Date_parse e) now); auto.
Qed.

(** A cookie that holds a stored token validates while the token is
    live. *)
Lemma me_live_token store now1 now2 cookie cookieData t E :
  In t (tokens store) ->
  token t <> "" -> expires t <> "" -> expiresAt t E ->
  (now1 <= now2 < E)%Z ->
  cookie <> "" ->
  JSON_parse cookie = ret cookieData ->
  get (Some cookieData) "token" = ret (Some (LoginToken_json t)) ->
  me.handler store now1 now2 (Some cookie)
  = json_response (User_json (sanitizeUser store)).
Proof.
  intros Hin Htok Hexp HE [H12 H2E] Hc Hcp Hck.
  rewrite (me_handler_token store now1 now2 cookie cookieData
             (LoginToken_json t) (token t) (expires t)); try done.
  rewrite HE. simpl.
  destruct (Z.ltb_spec E now1) as [? | _]; [lia |].
  assert (fakeDb store now2 (Some (JStr (token t))) = ret store) as ->; [| done].
  apply fakeDb_resolves. do 3 right. by exists t, E.
Qed.

(** C1: a login with an identifier equal to the stored id, username or
    email and a password that verifies succeeds with the sanitized user
    and the first stored token; a later /api/auth/me whose cookie holds
    that token, read before the token's expiry, returns the same
    sanitized user. *)
Theorem login_token_validates store now text data ident pw t E :
  JSON_parse text = ret data ->
  get (Some data) "username" = ret (Some (JStr ident)) ->
  get (Some data) "password" = ret (Some (JStr pw)) ->
  ident = id store \/ ident = username store \/ ident = email store ->
  compareSync pw (password store) = true ->
  tokens store !! 0%nat = Some t ->
  token t <> "" -> expires t <> "" -> expiresAt t E ->
  login.handler store now text
  = json_response (JObj [("user", User_json (sanitizeUser store));
                         ("token", LoginToken_json t)])
  /\ forall now1 now2 cookie cookieData,
       (now1 <= now2 < E)%Z ->
       cookie <> "" ->
       JSON_parse cookie = ret cookieData ->
       get (Some cookieData) "token"
       = ret (response_prop (login.handler store now text) "token") ->
       me.handler store now1 now2 (Some cookie)
       = json_response (User_json (sanitizeUser store))
       /\ response_prop (login.handler store now text) "user"
          = Some (User_json (sanitizeUser store)).
Proof.
  intros Hp Hu Hpw Hid Hcmp Ht Htok Hexp HE.
  apply get_string_object in Hu as (o & -> & Hou).
  apply get_string_object in Hpw as (o' & [= <-] & Hop).
  assert (fakeDb store now (Some (JStr ident)) = ret store) as Hdb.
  { apply fakeDb_resolves. tauto. }
  assert (login.handler store now text
          = json_response (JObj [("user", User_json (sanitizeUser store));
                                 ("token", LoginToken_json t)])) as Hlogin.
  { rewrite (login_handler_object _ _ _ _ Hp), Hou, Hdb, Hop. simpl.
    unfold login.compare_password. simpl. by rewrite Hcmp, Ht. }
  split; [done |].
  intros now1 now2 cookie cookieData H12 Hc Hcp Hck.
  rewrite Hlogin in *. unfold response_prop in *. simpl in *.
  split; [| done].
  apply (me_live_token store now1 now2 cookie cookieData t E); try done.
  apply list_elem_of_In, list_elem_of_lookup. eauto.
Qed.
(** On the record the server is loaded with, a stored token looks the
    user up exactly while it is live: its string is none of the three
    identifiers and no second token shares it. *)
Lemma seeded_token_lookup today now t E :
  In t (tokens (userData today)) ->
  expiresAt t E ->
  fakeDb (userData today) now (Some (JStr (token t))) = ret (userData today)
  <-> (now < E)%Z.
Proof.
  intros [<- | []] HE. rewrite fakeDb_resolves. simpl. split.
  - intros [Hx | [Hx | [Hx | (t' & E' & [<- | []] & _ & HE' & Hlt)]]];
      try discriminate Hx.
    unfold expiresAt in *. simpl in *. congruence.
  - intros Hlt. do 3 right. eexists _, E. split; [by left |]. done.
Qed.

(** A stored token that has expired is rejected, whatever expiry the
    cookie states for it. *)
Lemma me_expired_seeded today t E now now' cookie cookieData tk e :
  In t (tokens (userData today)) ->
  expiresAt t E ->
  (E <= now)%Z -> (now <= now')%Z ->
  JSON_parse cookie = ret cookieData ->
  get (Some cookieData) "token" = ret (Some tk) ->
  get (Some tk) "token" = ret (Some (JStr (token t))) ->
  get (Some tk) "expires" = ret (Some (JStr e)) ->
  me.handler (userData today) now now' (Some cookie) = me.unauth
  /\ status (me.handler (userData today) now now' (Some cookie)) = 401%Z.
Proof.
  intros Hin HE Hnow Hnow' Hp Htk Htt He.
  assert (me.handler (userData today) now now' (Some cookie) = me.unauth) as ->;
    [| done].
  destruct (me_handler_token_cases (userData today) now now' _ _ _ _ _ Hp Htk Htt He)
    as [-> | ->]; [done |].
  destruct (fakeDb_settles (userData today) now' (Some (JStr (token t)))) as [Hr | ->];
    [| done].
  apply (seeded_token_lookup today now' t E Hin HE) in Hr. lia.
Qed.

(** C4: on the seeded record, /api/auth/me with a stored token whose
    expiry is not later than the clock answers 401 Unauthorized, the
    instant of expiry included, whatever expiry the cookie itself
    states. *)
Theorem expired_token_unauthorized today t E now now' cookie cookieData tk e :
  In t (tokens (userData today)) ->
  expiresAt t E ->
  (E <= now)%Z -> (now <= now')%Z ->
  JSON_parse cookie = ret cookieData ->
  get (Some cookieData) "token" = ret (Some tk) ->
  get (Some tk) "token" = ret (Some (JStr (token t))) ->
  get (Some tk) "expires" = ret (Some (JStr e)) ->
  me.handler (userData today) now now' (Some cookie) = me.unauth
  /\ status (me.handler (userData today) now now' (Some cookie)) = 401%Z.
Proof. apply me_expired_seeded. Qed.

(** No sequence of requests changes the store. *)
Lemma run_store store rs : (run store rs).2 = store.
Proof.
  revert store. induction rs as [| r rs IH]; intros store; simpl; [done |].
  destruct (serve store r) as [resp store'] eqn:Hs.
  assert (store' = store) as -> by (by destruct r; simpl in Hs; injection Hs).
  specialize (IH store). destruct (run store rs) as [resps store'']. done.
Qed.

(** C5 (amended): on the seeded record, /api/auth/me with a stored token
    that has expired answers 401 and leaves the store as it was: the
    token's entry is still there, and a second call is answered 401 as
    well. *)
Theorem expired_token_stays_stored
    today t E now1 now1' now2 now2' cookie cookieData tk e :
  In t (tokens (userData today)) ->
  expiresAt t E ->
  (E <= now1 <= now1')%Z -> (now1' <= now2 <= now2')%Z ->
  JSON_parse cookie = ret cookieData ->
  get (Some cookieData) "token" = ret (Some tk) ->
  get (Some tk) "token" = ret (Some (JStr (token t))) ->
  get (Some tk) "expires" = ret (Some (JStr e)) ->
  run (userData today)
      [GET_me now1 now1' (Some cookie); GET_me now2 now2' (Some cookie)]
  = ([Some me.unauth; Some me.unauth], userData today)
  /\ In t (tokens (serve (userData today) (GET_me now1 now1' (Some cookie))).2).
Proof.
  intros Hin HE H1 H2 Hp Htk Htt He. simpl. split; [| done].
  destruct (me_expired_seeded today t E now1 now1' cookie cookieData tk e)
    as [-> _]; try done; try lia.
  destruct (me_expired_seeded today t E now2 now2' cookie cookieData tk e)
    as [-> _]; try done; lia.
Qed.

(** C9 (amended): logout answers nothing and revokes nothing: the store
    is as before, and /api/auth/me with a stored token, read before the
    token's expiry, still returns the sanitized user after it. *)
Theorem logout_keeps_session store now1 now2 cookie cookieData t E :
  In t (tokens store) ->
  token t <> "" -> expires t <> "" -> expiresAt t E ->
  (now1 <= now2 < E)%Z ->
  cookie <> "" ->
  JSON_parse cookie = ret cookieData ->
  get (Some cookieData) "token" = ret (Some (LoginToken_json t)) ->
  run store [GET_logout; GET_me now1 now2 (Some cookie)]
  = ([None; Some (json_response (User_json (sanitizeUser store)))], store).
Proof.
  intros Hin Htok Hexp HE H12 Hc Hp Hck. simpl.
  by rewrite (me_live_token store now1 now2 cookie cookieData t E).
Qed.
(** The three ways a login can end. *)
Lemma login_cases store now text :
  login.handler store now text = login.unauth
  \/ (exists e, login.handler store now text = internal_error e)
  \/ status (login.handler store now text) = 200%Z.
Proof.
  unfold login.handler.
  destruct (JSON_parse text) as [e | data]; simpl; [eauto |].
  destruct (get (Some data) "username") as [e | id_]; simpl; [auto |].
  destruct (fakeDb store now id_) as [e | user]; simpl; [auto |].
  destruct (get (Some data) "password") as [e | pw]; simpl; [eauto |].
  destruct (login.compare_password pw (password user)) as [e | [|]]; simpl; eauto.
Qed.

Lemma internal_error_text e : exists s, body (internal_error e) = Text s.
Proof. destruct e; simpl; eauto. Qed.

(** A JSON body of /api/auth/me is the sanitized stored user. *)
Lemma me_json_body store now now' cookie v :
  body (me.handler store now now' cookie) = Json v ->
  v = User_json (sanitizeUser store).
Proof.
  unfold me.handler.
  destruct cookie as [text |]; [| done].
  destruct (String.eqb text ""); [done |].
  destruct (JSON_parse text) as [e | cookieData]; simpl; [by destruct e |].
  destruct (get (Some cookieData) "token") as [e | token_]; simpl; [by destruct e |].
  destruct (truthy token_); simpl; [| done].
  destruct (get token_ "token") as [e | token_token]; simpl; [by destruct e |].
  destruct (truthy token_token); simpl; [| done].
  destruct (get token_ "expires") as [e | token_expires]; simpl; [by destruct e |].
  destruct (truthy token_expires); simpl; [| done].
  destruct (newDate token_expires) as [e | expires_]; simpl; [by destruct e |].
  destruct (date_lt expires_ now); simpl; [done |].
  destruct (fakeDb store now' token_token) as [e | user] eqn:Hdb; simpl; [done |].
  apply fakeDb_resolved in Hdb as ->. congruence.
Qed.

(** C2 (amended): the user object of every login and /api/auth/me
    response is the stored user with [password] set to the empty string
    and [tokens] to the empty list: both properties are present and
    emptied, and neither the digest nor a token is inside the object. *)
Theorem user_object_sanitized store :
  let sanitized :=
    JObj [("id", JStr (id store)); ("fullName", JStr (fullName store));
          ("email", JStr (email store)); ("username", JStr (username store));
          ("password", JStr ""); ("tokens", JArr [])] in
  (forall now text user_,
      response_prop (login.handler store now text) "user" = Some user_ ->
      user_ = sanitized)
  /\ (forall now now' cookie user_,
        body (me.handler store now now' cookie) = Json user_ ->
        user_ = sanitized).
Proof.
  simpl. split.
  - intros now text user_.
    destruct (login_cases store now text) as [-> | [[e ->] | Hok]].
    + done.
    + unfold response_prop. by destruct (internal_error_text e) as [s ->].
    + rewrite (login_success _ _ _ Hok). unfold response_prop. simpl.
      by intros [= <-].
  - intros now now' cookie user_ Hb.
    by rewrite (me_json_body _ _ _ _ _ Hb).
Qed.

(** A property read that cannot throw: what [get] returns on anything
    but [null] and [undefined]. *)
Lemma get_prop (v : json) k : v <> JNull -> get (Some v) k = ret (prop (Some v) k).
Proof. by destruct v. Qed.

(** C10 (amended): a cookie that is present but is not JSON ends in the
    outer [catch] with status 500, and so do a cookie whose JSON value is
    [null], whose [token] cannot be read, and a cookie with its three
    token fields in place whose expiry the [Date] constructor throws on.
    The other rejected cookies end in 401 Unauthorized: no cookie, a
    token field missing or falsy, and, where the constructor accepts the
    expiry, an expiry in the past or a token [fakeDb] does not know.  A
    string for an expiry is always accepted. *)
Theorem malformed_cookie_internal_error store now now' text :
  text <> "" ->
  (forall e, JSON_parse text = throw e ->
             me.handler store now now' (Some text) = internal_error e
             /\ status (me.handler store now now' (Some text)) = 500%Z)
  /\ (JSON_parse text = ret JNull ->
      status (me.handler store now now' (Some text)) = 500%Z)
  /\ me.handler store now now' None = me.unauth
  /\ me.handler store now now' (Some "") = me.unauth
  /\ (forall cookieData,
        JSON_parse text = ret cookieData -> cookieData <> JNull ->
        let token_ := prop (Some cookieData) "token" in
        (truthy token_ && truthy (prop token_ "token")
         && truthy (prop token_ "expires") = false ->
         me.handler store now now' (Some text) = me.unauth)
        /\ (forall e,
              truthy token_ && truthy (prop token_ "token")
              && truthy (prop token_ "expires") = true ->
              newDate (prop token_ "expires") = throw e ->
              me.handler store now now' (Some text) = internal_error e
              /\ status (me.handler store now now' (Some text)) = 500%Z)
        /\ (forall d, newDate (prop token_ "expires") = ret d ->
                      date_lt d now = true ->
                      me.handler store now now' (Some text) = me.unauth)
        /\ (forall d e, newDate (prop token_ "expires") = ret d ->
                        fakeDb store now' (prop token_ "token") = throw e ->
                        me.handler store now now' (Some text) = me.unauth)
        /\ (forall s, prop token_ "expires" = Some (JStr s) ->
                      newDate (prop token_ "expires") = ret (Date_parse s))).
Proof.
  intros Htext. apply String.eqb_neq in Htext.
  split; [| split; [| split; [done | split; [done |]]]].
  - intros e He. unfold me.handler. rewrite Htext, He. simpl. by destruct e.
  - intros Hp. unfold me.handler. by rewrite Htext, Hp.
  - intros cookieData Hp Hnull token_.
    assert (forall k, truthy token_ = true ->
                      get token_ k = ret (prop token_ k)) as Hget.
    { intros k. destruct token_ as [[]|]; done. }
    unfold me.handler. rewrite Htext, Hp. simpl.
    rewrite (get_prop _ _ Hnull). fold token_. simpl.
    destruct (truthy token_) eqn:Ht; simpl;
      [| repeat split; try done; by intros s ->].
    rewrite !Hget by done. simpl.
    destruct (truthy (prop token_ "token")) eqn:Htt; simpl;
      [| repeat split; try done; by intros s ->].
    destruct (truthy (prop token_ "expires")) eqn:Hte; simpl;
      [| repeat split; try done; by intros s ->].
    split; [done |]. split; [| split; [| split]].
    + intros e _ ->. simpl. by destruct e.
    + intros d -> Hlt. simpl. by rewrite Hlt.
    + intros d e -> ->. simpl. by destruct (date_lt d now).
    + by intros s ->.
Qed.
End Me.

Section Refresh.
Import SessionCore.
Variable directory : gmap string UserRecord.
Variable sessionTTL : Z.

Lemma get_delete_eq ts tok : get (delete ts tok) tok = None.
Proof.
  unfold get, delete. destruct (primary ts !! tok) eqn:E; simpl; [| done].
  apply lookup_delete_eq.
Qed.

(** C8: after [refresh] has turned a token into a new one, the old
    token no longer validates, at any time, and the new one validates
    to the same user until its own expiry. *)
Theorem refresh_consumes_token ts now fresh t r ts' :
  refresh directory sessionTTL ts now fresh t = (inr r, ts') ->
  newToken r <> t ->
  (forall now', validate directory ts' now' t = (inl TokenNotFound, ts'))
  /\ (forall now', (now' < newExpiresAt r)%Z ->
                   validate directory ts' now' (newToken r) = (inr (user r), ts')).
Proof.
  unfold refresh, validate.
  destruct (get ts t) as [s |] eqn:Hs; [| done].
  destruct (expiresAt s <=? now)%Z eqn:Hexp; [done |].
  destruct (findById directory (userId s)) as [u |] eqn:Hu; [| done].
  unfold put. simpl.
  destruct (primary (delete ts t) !! fresh) eqn:Hfresh; [done |].
  intros [= <- <-] Hne. simpl in *.
  unfold get. simpl. split.
  - intros now'. rewrite lookup_insert_ne by done.
    fold (get (delete ts t) t). by rewrite get_delete_eq.
  - intros now' Hlt. rewrite lookup_insert_eq. simpl.
    destruct (Z.leb_spec (now + sessionTTL) now'); [lia |].
    by rewrite Hu.
Qed.
End Refresh.

(** * Further properties of the endpoints *)

Section Validation.
Context `{Platform}.
Implicit Types (store : User) (now : Z) (v : jsval) (s : string).
Local Arguments get : simpl never.
Local Arguments fakeDb : simpl never.
Local Arguments newDate : simpl never.
Local Arguments login.compare_password : simpl never.

(** Whenever a property read returns, it returns what [prop] reads. *)
Lemma get_ret_prop v k x : get v k = ret x -> x = prop v k.
Proof.
  destruct v as [[]|]; unfold get, ret, throw; simpl; congruence.
Qed.

Local Arguments prop : simpl never.

(** [fakeDb] resolves on strings only. *)
Lemma fakeDb_resolved_string store now v user :
  fakeDb store now v = inr user -> exists s, v = Some (JStr s).
Proof.
  intros Hdb.
  destruct v as [[| | |s| |]|]; eauto;
    rewrite fakeDb_not_string in Hdb by done; discriminate Hdb.
Qed.

(** A lookup that resolves at some instant resolves at every earlier
    one: identifiers never expire, tokens only do so forwards. *)
Lemma fakeDb_earlier store now0 now1 v :
  (now0 <= now1)%Z ->
  fakeDb store now1 v = ret store -> fakeDb store now0 v = ret store.
Proof.
  intros Hle Hdb.
  destruct (fakeDb_resolved_string _ _ _ _ Hdb) as [s ->].
  apply fakeDb_resolves in Hdb. apply fakeDb_resolves.
  destruct Hdb as [? | [? | [? | (t & E & Hin & Ht & HE & Hlt)]]]; auto.
  do 3 right. exists t, E. repeat split; try done. lia.
Qed.

Lemma date_lt_earlier d now0 now1 :
  (now0 <= now1)%Z -> date_lt d now1 = false -> date_lt d now0 = false.
Proof.
  destruct d as [t |]; simpl; [| done].
  rewrite !Z.ltb_ge. lia.
Qed.

(** What a 200 of /api/auth/me tells about the cookie and the clock. *)
Lemma me_success_inv store now now' cookie :
  status (me.handler store now now' cookie) = 200%Z ->
  exists text cookieData s d,
    cookie = Some text /\ text <> ""
    /\ JSON_parse text = ret cookieData
    /\ truthy (prop (Some cookieData) "token") = true
    /\ prop (prop (Some cookieData) "token") "token" = Some (JStr s)
    /\ truthy (prop (prop (Some cookieData) "token") "expires") = true
    /\ newDate (prop (prop (Some cookieData) "token") "expires") = ret d
    /\ date_lt d now = false
    /\ fakeDb store now' (Some (JStr s)) = ret store
    /\ me.handler store now now' cookie
       = json_response (User_json (sanitizeUser store)).
Proof.
  unfold me.handler.
  destruct cookie as [text |]; [| done].
  destruct (String.eqb_spec text "") as [-> | Htext]; [done |].
  destruct (JSON_parse text) as [e | cookieData] eqn:Hp; simpl; [by destruct e |].
  destruct (get (Some cookieData) "token") as [e | token_] eqn:Htk; simpl;
    [by destruct e |].
  apply get_ret_prop in Htk as ->.
  set (tk := prop (Some cookieData) "token").
  destruct (truthy tk) eqn:Ht; simpl; [| done].
  destruct (get tk "token") as [e | token_token] eqn:Htt; simpl; [by destruct e |].
  apply get_ret_prop in Htt as ->.
  destruct (truthy (prop tk "token")); simpl; [| done].
  destruct (get tk "expires") as [e | token_expires] eqn:Hte; simpl; [by destruct e |].
  apply get_ret_prop in Hte as ->.
  destruct (truthy (prop tk "expires")) eqn:Hx; simpl; [| done].
  destruct (newDate (prop tk "expires")) as [e | d] eqn:Hd; simpl; [by destruct e |].
  destruct (date_lt d now) eqn:Hlt; simpl; [done |].
  destruct (fakeDb store now' (prop tk "token")) as [e | user] eqn:Hdb; simpl; [done |].
  intros _.
  destruct (fakeDb_resolved_string _ _ _ _ Hdb) as [s Hs].
  apply fakeDb_resolved in Hdb as Hu. subst user. rewrite Hs in Hdb.
  exists text, cookieData, s, d. repeat split; done.
Qed.

(** X1: /api/auth/me answers 200 only to a cookie whose [token.token] is
    a string equal to the stored id, username or email, or to the string
    of a stored token that is live when [fakeDb] reads the clock; the
    answer is then the sanitized stored user. *)
Theorem me_success_sound store now now' cookie :
  status (me.handler store now now' cookie) = 200%Z ->
  exists text cookieData s,
    cookie = Some text
    /\ JSON_parse text = ret cookieData
    /\ prop (prop (Some cookieData) "token") "token" = Some (JStr s)
    /\ (s = id store \/ s = username store \/ s = email store
        \/ live_token store now' s)
    /\ me.handler store now now' cookie
       = json_response (User_json (sanitizeUser store)).
Proof.
  intros Hok.
  destruct (me_success_inv _ _ _ _ Hok)
    as (text & cookieData & s & d & -> & _ & Hp & _ & Hs & _ & _ & _ & Hdb & Hr).
  exists text, cookieData, s. repeat split; try done.
  by apply fakeDb_resolves.
Qed.

(** X2: /api/auth/me takes the stored id, username or email for a token:
    a cookie that names one of them, with any stated expiry that is not
    in the past, is answered with the user, with no token and no
    password, also when no stored token is live. *)
Theorem me_accepts_identifier store now now' text cookieData tk s e :
  text <> "" ->
  JSON_parse text = ret cookieData ->
  get (Some cookieData) "token" = ret (Some tk) ->
  get (Some tk) "token" = ret (Some (JStr s)) ->
  get (Some tk) "expires" = ret (Some (JStr e)) ->
  s <> "" -> e <> "" ->
  s = id store \/ s = username store \/ s = email store ->
  date_lt (Date_parse e) now = false ->
  me.handler store now now' (Some text)
  = json_response (User_json (sanitizeUser store)).
Proof.
  intros Htext Hp Htk Htt He Hs He' Hid Hlt.
  rewrite (me_handler_token _ _ _ _ _ _ _ _ Htext Hp Htk Htt He Hs He'), Hlt.
  assert (fakeDb store now' (Some (JStr s)) = ret store) as ->; [| done].
  apply fakeDb_resolves. tauto.
Qed.

(** X3: the expiry a cookie states is only compared when it parses as a
    date: with an expiry string that is no date, a cookie that holds a
    live stored token is answered with the user. *)
Theorem me_unparsed_expiry_passes store now now' text cookieData tk t E e :
  text <> "" ->
  JSON_parse text = ret cookieData ->
  get (Some cookieData) "token" = ret (Some tk) ->
  get (Some tk) "token" = ret (Some (JStr (token t))) ->
  get (Some tk) "expires" = ret (Some (JStr e)) ->
  token t <> "" -> e <> "" ->
  Date_parse e = None ->
  In t (tokens store) -> expiresAt t E -> (now' < E)%Z ->
  me.handler store now now' (Some text)
  = json_response (User_json (sanitizeUser store)).
Proof.
  intros Htext Hp Htk Htt He Hs He' Hnan Hin HE Hlt.
  rewrite (me_handler_token _ _ _ _ _ _ _ _ Htext Hp Htk Htt He Hs He'), Hnan.
  simpl.
  assert (fakeDb store now' (Some (JStr (token t))) = ret store) as ->; [| done].
  apply fakeDb_resolves. do 3 right. by exists t, E.
Qed.

(** X4: the answer of /api/auth/me depends on the cookie through its
    [token] property alone: two cookies with the same [token] get the
    same answer, whatever user object or other data they carry. *)
Theorem me_reads_token_only store now now' text1 text2 c1 c2 :
  text1 <> "" -> text2 <> "" ->
  JSON_parse text1 = ret c1 ->
  JSON_parse text2 = ret c2 ->
  get (Some c1) "token" = get (Some c2) "token" ->
  me.handler store now now' (Some text1) = me.handler store now now' (Some text2).
Proof.
  intros H1 H2 Hp1 Hp2 Htok.
  apply String.eqb_neq in H1, H2.
  unfold me.handler. rewrite H1, H2, Hp1, Hp2. simpl.
  by rewrite Htok.
Qed.

(** X5: a cookie that is answered 200 at some instant is answered the
    same at every earlier instant; so a cookie that is refused once is
    refused at every later instant. *)
Theorem me_success_earlier store now0 now0' now1 now1' cookie :
  (now0 <= now1)%Z -> (now0' <= now1')%Z ->
  (status (me.handler store now1 now1' cookie) = 200%Z ->
   me.handler store now0 now0' cookie = me.handler store now1 now1' cookie)
  /\ (status (me.handler store now0 now0' cookie) <> 200%Z ->
      status (me.handler store now1 now1' cookie) <> 200%Z).
Proof.
  intros Hle Hle'.
  assert (status (me.handler store now1 now1' cookie) = 200%Z ->
          me.handler store now0 now0' cookie = me.handler store now1 now1' cookie)
    as Hearlier.
  { unfold me.handler.
    destruct cookie as [text |]; [| done].
    destruct (String.eqb text ""); [done |].
    destruct (JSON_parse text) as [e | cookieData]; simpl; [done |].
    destruct (get (Some cookieData) "token") as [e | token_]; simpl; [done |].
    destruct (truthy token_); simpl; [| done].
    destruct (get token_ "token") as [e | token_token]; simpl; [done |].
    destruct (truthy token_token); simpl; [| done].
    destruct (get token_ "expires") as [e | token_expires]; simpl; [done |].
    destruct (truthy token_expires); simpl; [| done].
    destruct (newDate token_expires) as [e | expires_]; simpl; [done |].
    destruct (date_lt expires_ now1) eqn:Hlt; simpl; [done |].
    rewrite (date_lt_earlier _ _ _ Hle Hlt).
    destruct (fakeDb store now1' token_token) as [e | user] eqn:Hdb; simpl; [done |].
    apply fakeDb_resolved in Hdb as Hu. subst user.
    by rewrite (fakeDb_earlier _ _ _ _ Hle' Hdb). }
  split; [done |].
  intros Hno Hyes. apply Hno. by rewrite (Hearlier Hyes).
Qed.

(** X6: /api/auth/me answers 500 exactly when the cookie is a non-empty
    text and its parse throws, or it parses to [null], or its three token
    fields are truthy and the [Date] constructor throws on the expiry. *)
Theorem me_internal_error_iff store now now' cookie :
  status (me.handler store now now' cookie) = 500%Z
  <-> exists text,
        cookie = Some text /\ text <> ""
        /\ ((exists e, JSON_parse text = throw e)
            \/ JSON_parse text = ret JNull
            \/ exists cookieData e,
                 JSON_parse text = ret cookieData
                 /\ truthy (prop (Some cookieData) "token") = true
                 /\ truthy (prop (prop (Some cookieData) "token") "token") = true
                 /\ truthy (prop (prop (Some cookieData) "token") "expires") = true
                 /\ newDate (prop (prop (Some cookieData) "token") "expires")
                    = throw e).
Proof.
  assert (forall e, status (internal_error e) = 500%Z) as H500 by (by intros []).
  assert (forall tk k, truthy tk = true -> get tk k = ret (prop tk k)) as Hget.
  { intros [[]|] k; done. }
  unfold me.handler. split.
  - destruct cookie as [text |]; [| done].
    destruct (String.eqb_spec text "") as [-> | Htext]; [done |].
    intros Hs. exists text. split; [done |]. split; [done |]. revert Hs.
    destruct (JSON_parse text) as [e | cookieData]; simpl; [eauto |].
    assert (cookieData = JNull \/ cookieData <> JNull) as [-> | Hnull]
      by (destruct cookieData; (by left) || (by right)); [auto |].
    rewrite (get_prop _ _ Hnull). simpl.
    set (tk := prop (Some cookieData) "token").
    destruct (truthy tk) eqn:Ht; simpl; [| done].
    rewrite !Hget by done. simpl.
    destruct (truthy (prop tk "token")) eqn:Htt; simpl; [| done].
    destruct (truthy (prop tk "expires")) eqn:Hte; simpl; [| done].
    destruct (newDate (prop tk "expires")) as [e | d] eqn:Hd; simpl.
    + intros _. do 2 right. exists cookieData, e. done.
    + destruct (date_lt d now); simpl; [done |].
      by destruct (fakeDb store now' (prop tk "token")).
  - intros (text & -> & Htext & Hcase).
    apply String.eqb_neq in Htext. rewrite Htext.
    destruct Hcase as [[e ->] | [-> | (cookieData & e & -> & Ht & Htt & Hte & Hd)]];
      simpl; [apply H500 | done |].
    assert (cookieData <> JNull) as Hnull by (by intros ->).
    rewrite (get_prop _ _ Hnull). simpl. rewrite Ht. simpl.
    rewrite !Hget by done. simpl. rewrite Htt, Hte. simpl. rewrite Hd. simpl.
    apply H500.
Qed.
End Validation.

Section Credentials.
Context `{Platform}.
Implicit Types (store : User) (now : Z) (v : jsval) (s : string).
Local Arguments get : simpl never.
Local Arguments prop : simpl never.
Local Arguments fakeDb : simpl never.
Local Arguments login.compare_password : simpl never.

(** The login handler after a body that parsed, in terms of the two
    properties it reads. *)
Lemma login_handler_parsed store now text data :
  JSON_parse text = ret data ->
  login.handler store now text =
    match fakeDb store now (prop (Some data) "username") with
    | inl _ => login.unauth
    | inr _ =>
        match login.compare_password (prop (Some data) "password") (password store) with
        | inl e => internal_error e
        | inr ok =>
            if ok
            then json_response
                   (JObj (("user", User_json (sanitizeUser store))
                          :: match tokens store !! 0%nat with
                             | Some t => [("token", LoginToken_json t)]
                             | None => []
                             end))
            else login.unauth
        end
    end.
Proof.
  intros Hp. unfold login.handler. rewrite Hp. simpl.
  assert (data = JNull \/ data <> JNull) as [-> | Hnull]
    by (destruct data; (by left) || (by right)).
  - by rewrite fakeDb_not_string.
  - rewrite !(get_prop _ _ Hnull). simpl.
    destruct (fakeDb store now (prop (Some data) "username")) as [e | user] eqn:Hdb;
      simpl; [done |].
    apply fakeDb_resolved in Hdb as ->.
    by destruct (login.compare_password _ _) as [e | [|]].
Qed.

Lemma compare_password_string p hash :
  login.compare_password (Some (JStr p)) hash = ret (compareSync p hash).
Proof. done. Qed.

Lemma compare_password_other v hash :
  (forall p, v <> Some (JStr p)) ->
  exists e, login.compare_password v hash = throw e.
Proof.
  intros Hv. destruct v as [[| | |p| |]|]; unfold login.compare_password; eauto.
  by destruct (Hv p).
Qed.

(** X7: login answers 200 exactly when the body parses, [fakeDb]
    resolves on its [username], and its [password] is a string that
    verifies against the stored digest. *)
Theorem login_success_iff store now text :
  status (login.handler store now text) = 200%Z
  <-> exists data pw,
        JSON_parse text = ret data
        /\ fakeDb store now (prop (Some data) "username") = ret store
        /\ prop (Some data) "password" = Some (JStr pw)
        /\ compareSync pw (password store) = true.
Proof.
  split.
  - destruct (JSON_parse text) as [e | data] eqn:Hp.
    { unfold login.handler. rewrite Hp. simpl. by destruct e. }
    rewrite (login_handler_parsed _ _ _ _ Hp).
    destruct (fakeDb_settles store now (prop (Some data) "username")) as [Hdb | Hdb];
      rewrite Hdb; simpl; [| done].
    destruct (prop (Some data) "password") as [[| | |pw| |]|] eqn:Hpw;
      try (unfold login.compare_password; simpl; done).
    rewrite compare_password_string.
    destruct (compareSync pw (password store)) eqn:Hc; [| done].
    intros _. by exists data, pw.
  - intros (data & pw & Hp & Hdb & Hpw & Hc).
    by rewrite (login_handler_parsed _ _ _ _ Hp), Hdb, Hpw, compare_password_string, Hc.
Qed.

(** X8: a body whose [password] is a string is answered 200 or 401,
    never 500. *)
Theorem login_string_password_no_error store now text data pw :
  JSON_parse text = ret data ->
  get (Some data) "password" = ret (Some (JStr pw)) ->
  status (login.handler store now text) = 200%Z
  \/ login.handler store now text = login.unauth.
Proof.
  intros Hp Hpw. apply get_ret_prop in Hpw.
  rewrite (login_handler_parsed _ _ _ _ Hp), <- Hpw, compare_password_string.
  destruct (fakeDb store now _); [by right |].
  destruct (compareSync pw (password store)); [by left | by right].
Qed.

(** X9: a body that parses and has no string under [password] tells
    whether its [username] is known: it is answered 500 when [fakeDb]
    resolves on the username and 401 when it rejects. *)
Theorem login_missing_password_reveals_user store now text data :
  JSON_parse text = ret data ->
  (forall pw, prop (Some data) "password" <> Some (JStr pw)) ->
  (fakeDb store now (prop (Some data) "username") = ret store ->
   status (login.handler store now text) = 500%Z)
  /\ (fakeDb store now (prop (Some data) "username") <> ret store ->
      login.handler store now text = login.unauth).
Proof.
  intros Hp Hpw.
  rewrite (login_handler_parsed _ _ _ _ Hp).
  destruct (compare_password_other _ (password store) Hpw) as [e ->].
  split.
  - intros ->. by destruct e.
  - intros Hno.
    by destruct (fakeDb_settles store now (prop (Some data) "username")) as [? | ->].
Qed.

(** X10: on the seeded record, once the stored token has expired a login
    with a known identifier and the right password is still answered 200
    and still hands out that token, and /api/auth/me refuses the token
    from then on. *)
Theorem login_after_expiry_hands_out_dead_token
    today now text data ident pw t E now1 now2 cookie cookieData :
  tokens (userData today) !! 0%nat = Some t ->
  expiresAt t E -> (E <= now)%Z ->
  JSON_parse text = ret data ->
  get (Some data) "username" = ret (Some (JStr ident)) ->
  get (Some data) "password" = ret (Some (JStr pw)) ->
  ident = id (userData today) \/ ident = username (userData today)
  \/ ident = email (userData today) ->
  compareSync pw (password (userData today)) = true ->
  (now <= now1)%Z -> (now1 <= now2)%Z ->
  JSON_parse cookie = ret cookieData ->
  get (Some cookieData) "token"
  = ret (response_prop (login.handler (userData today) now text) "token") ->
  login.handler (userData today) now text
  = json_response (JObj [("user", User_json (sanitizeUser (userData today)));
                         ("token", LoginToken_json t)])
  /\ me.handler (userData today) now1 now2 (Some cookie) = me.unauth.
Proof.
  intros Ht HE Hexp Hp Hu Hpw Hid Hc H1 H2 Hcp Hck.
  apply get_ret_prop in Hu, Hpw.
  assert (login.handler (userData today) now text
          = json_response (JObj [("user", User_json (sanitizeUser (userData today)));
                                 ("token", LoginToken_json t)])) as Hlogin.
  { rewrite (login_handler_parsed _ _ _ _ Hp), <- Hu, <- Hpw, compare_password_string, Hc.
    assert (fakeDb (userData today) now (Some (JStr ident)) = ret (userData today))
      as -> by (apply fakeDb_resolves; tauto).
    by rewrite Ht. }
  split; [done |].
  rewrite Hlogin in Hck. unfold response_prop in Hck. simpl in Hck.
  apply (me_expired_seeded today t E now1 now2 cookie cookieData
           (LoginToken_json t) (expires t)); try done; try lia.
  apply list_elem_of_In, list_elem_of_lookup. eauto.
Qed.

(** X14: a body that parses and has no string under [username], the
    body [null] included, is answered 401, whatever its password and
    also without one. *)
Theorem login_without_username store now text data :
  JSON_parse text = ret data ->
  (forall s, prop (Some data) "username" <> Some (JStr s)) ->
  login.handler store now text = login.unauth.
Proof.
  intros Hp Hno.
  by rewrite (login_handler_parsed _ _ _ _ Hp), fakeDb_not_string.
Qed.
End Credentials.

Section ClientServer.
Context `{Platform}.
Implicit Types (store : User) (now : Z) (v : jsval) (s : string).
Local Arguments get : simpl never.
Local Arguments prop : simpl never.
Local Arguments fakeDb : simpl never.
Local Arguments newDate : simpl never.

(** The three ways /api/auth/me can end. *)
Lemma me_cases store now now' cookie :
  me.handler store now now' cookie = me.unauth
  \/ (exists e, me.handler store now now' cookie = internal_error e)
  \/ status (me.handler store now now' cookie) = 200%Z.
Proof.
  unfold me.handler.
  destruct cookie as [text |]; [| auto].
  destruct (String.eqb text ""); [auto |].
  destruct (JSON_parse text) as [e | cookieData]; simpl; [eauto |].
  destruct (get (Some cookieData) "token") as [e | token_]; simpl; [eauto |].
  destruct (truthy token_); simpl; [| auto].
  destruct (get token_ "token") as [e | token_token]; simpl; [eauto |].
  destruct (truthy token_token); simpl; [| auto].
  destruct (get token_ "expires") as [e | token_expires]; simpl; [eauto |].
  destruct (truthy token_expires); simpl; [| auto].
  destruct (newDate token_expires) as [e | expires_]; simpl; [eauto |].
  destruct (date_lt expires_ now); simpl; [auto |].
  destruct (fakeDb store now' token_token); simpl; auto.
Qed.

Lemma internal_error_not_ok e : result_ok (internal_error e) = false.
Proof. by destruct e. Qed.

Lemma assoc_setProp_ne k k' (v : json) o :
  k' <> k -> assoc k' (setProp k v o) = assoc k' o.
Proof.
  intros Hne. unfold setProp.
  destruct (assoc k o) as [old |] eqn:Hk.
  - clear Hk. induction o as [| [k0 v0] o IH]; simpl; [done |].
    destruct (String.eqb_spec k0 k) as [-> | Hk0]; simpl.
    + apply String.eqb_neq in Hne. by rewrite Hne.
    + by rewrite IH.
  - clear Hk. induction o as [| [k0 v0] o IH]; simpl.
    + apply String.eqb_neq in Hne. by rewrite Hne.
    + by rewrite IH.
Qed.

(** X11: a login through the hook, with the body [fetch] posts parsing
    to the two strings of the form.  When the identifier is known and
    the password verifies, the hook sets the user to the sanitized user,
    writes a cookie holding the login response, expiring when the token
    does, and returns [true]; otherwise it logs the 401 body and throws
    "Invalid username or password".  It never throws "Login failed". *)
Theorem hook_login_outcome store now text username_ password_ t :
  JSON_parse text
  = ret (JObj [("username", JStr username_); ("password", JStr password_)]) ->
  tokens store !! 0%nat = Some t ->
  let response :=
    JObj [("user", User_json (sanitizeUser store)); ("token", LoginToken_json t)] in
  (fakeDb store now (Some (JStr username_)) = ret store
   /\ compareSync password_ (password store) = true ->
   useAuth.login (ret (login.handler store now text))
   = ([setUser (Some (User_json (sanitizeUser store)));
       setCookie response (Date_parse (expires t))],
      ret true))
  /\ (~ (fakeDb store now (Some (JStr username_)) = ret store
         /\ compareSync password_ (password store) = true) ->
      useAuth.login (ret (login.handler store now text))
      = ([console_error_text (Text "Unauthorized")],
         throw (ErrorObject "Invalid username or password"))).
Proof.
  intros Hp Ht response.
  set (o := [("username", JStr username_); ("password", JStr password_)]) in *.
  assert (assoc "username" o = Some (JStr username_)) as Hu by reflexivity.
  assert (assoc "password" o = Some (JStr password_)) as Hpw by reflexivity.
  rewrite (login_handler_object _ _ _ _ Hp), Hu, Hpw.
  change (login.compare_password (Some (JStr password_)) ?h)
    with (ret (compareSync password_ h)).
  split.
  - intros [-> Hc]. simpl. by rewrite Hc, Ht.
  - intros Hno.
    destruct (fakeDb_settles store now (Some (JStr username_))) as [Hdb | Hdb];
      rewrite Hdb; [| done].
    simpl. destruct (compareSync password_ (password store)) eqn:Hc; [| done].
    by destruct Hno.
Qed.

(** X12: a page load with a cookie the server refuses.  Whenever
    /api/auth/me answers the cookie with anything but 200, [loadUser]
    shows the user cached in the cookie, then sets the user to [null]
    and deletes the cookie, and the protected page shows the login. *)
Theorem hook_reload_refused store now now' text cookieParsed cached user0 :
  JSON_parse text = ret cookieParsed ->
  get (Some cookieParsed) "user" = ret cached ->
  status (me.handler store now now' (Some text)) <> 200%Z ->
  useAuth.loadUser (Some text) (ret (me.handler store now now' (Some text)))
  = ([console_log "Pulling user data..."; setUser cached; setUser null; deleteCookie],
     ret tt)
  /\ ProtectedPage
       (user_after user0
          (useAuth.loadUser (Some text)
             (ret (me.handler store now now' (Some text)))).1)
     = LoginWrapper.
Proof.
  intros Hp Hu Hno.
  assert (useAuth.loadUser (Some text) (ret (me.handler store now now' (Some text)))
          = ([console_log "Pulling user data..."; setUser cached; setUser null;
              deleteCookie], ret tt)) as ->; [| done].
  unfold useAuth.loadUser. simpl. rewrite Hp. simpl. rewrite Hu. simpl.
  unfold useAuth.fetchUser.
  destruct (me_cases store now now' (Some text)) as [-> | [[e ->] | Hok]];
    [done | | done].
  simpl. by rewrite internal_error_not_ok.
Qed.

(** X13: a page load with a cookie the server accepts.  Whenever
    /api/auth/me answers the cookie with 200, [loadUser] first shows the
    user cached in the cookie and then replaces it, in the state and in
    the rewritten cookie, by the sanitized user of the server, whatever
    the cookie held; the protected page shows its content. *)
Theorem hook_reload_accepted store now now' text o user0 :
  JSON_parse text = ret (JObj o) ->
  status (me.handler store now now' (Some text)) = 200%Z ->
  exists d,
    newDate (prop (assoc "token" o) "expires") = ret d
    /\ date_lt d now = false
    /\ useAuth.loadUser (Some text) (ret (me.handler store now now' (Some text)))
       = ([console_log "Pulling user data...";
           setUser (assoc "user" o);
           console_log "Done fetching user!";
           setUser (Some (User_json (sanitizeUser store)));
           setCookie (JObj (setProp "user" (User_json (sanitizeUser store)) o)) d],
          ret tt)
    /\ ProtectedPage
         (user_after user0
            (useAuth.loadUser (Some text)
               (ret (me.handler store now now' (Some text)))).1)
       = children.
Proof.
  intros Hp Hok.
  destruct (me_success_inv _ _ _ _ Hok)
    as (text' & cookieData & s & d & [= <-] & _ & Hp' & Ht & _ & _ & Hd & Hlt & _ & Hr).
  rewrite Hp in Hp'. injection Hp' as <-.
  change (prop (Some (JObj o)) "token") with (assoc "token" o) in *.
  exists d. split; [done |]. split; [done |].
  assert (useAuth.loadUser (Some text) (ret (me.handler store now now' (Some text)))
          = ([console_log "Pulling user data...";
              setUser (assoc "user" o);
              console_log "Done fetching user!";
              setUser (Some (User_json (sanitizeUser store)));
              setCookie (JObj (setProp "user" (User_json (sanitizeUser store)) o)) d],
             ret tt)) as ->; [| done].
  rewrite Hr.
  unfold useAuth.loadUser. simpl. rewrite Hp. simpl.
  unfold useAuth.fetchUser, useAuth.setLoginCookie. simpl.
  rewrite assoc_setProp_ne by done.
  destruct (assoc "token" o) as [tk |] eqn:Htk; [| done].
  assert (get (Some tk) "expires" = ret (prop (Some tk) "expires")) as ->.
  { destruct tk; done. }
  simpl. by rewrite Hd.
Qed.
End ClientServer.
(** * The theorems at concrete requests

    Each theorem above is run on the reference platform: the server is
    started at [Scenario.started], the seeded user logs in with the
    credentials the login form is pre-filled with, and the client keeps
    the cookie [Scenario.loginCookie]. *)

Import Reference Scenario.

Ltac by_eval := vm_compute; reflexivity.
Ltac by_order := vm_compute; repeat split; solve [reflexivity | discriminate].
Ltac by_diff := vm_compute; discriminate.

(** The scenario of the specification: the seeded user logs in, and the
    cookie validates one second into the session. *)
Lemma login_token_validates_witness :
  login.handler store early (credentials "joeblow" "TestPassword4$")
  = json_response loginResponse
  /\ me.handler store early early (Some loginCookie)
     = json_response (User_json (sanitizeUser store)).
Proof.
  destruct (@login_token_validates platform store early
              (credentials "joeblow" "TestPassword4$") loginBody
              "joeblow" "TestPassword4$" seeded (futureDate started)
              ltac:(by_eval) ltac:(by_eval) ltac:(by_eval)
              ltac:(right; left; reflexivity) ltac:(by_eval) ltac:(by_eval)
              ltac:(by_diff) ltac:(by_diff) ltac:(by_eval))
    as [Hlogin Hme].
  split; [exact Hlogin |].
  apply (Hme early early loginCookie loginResponse
           ltac:(by_order) ltac:(by_diff) ltac:(by_eval) ltac:(by_eval)).
Defined.

(** C2 as stated fails: the user object of the scenario's login has the
    properties [password] and [tokens]; they are emptied, not absent. *)
Lemma login_user_object_keeps_password_key :
  exists props,
    response_prop (login.handler store early (credentials "joeblow" "TestPassword4$"))
                  "user" = Some (JObj props)
    /\ assoc "password" props = Some (JStr "")
    /\ assoc "tokens" props = Some (JArr [])
    /\ In "password" (map fst props)
    /\ In "tokens" (map fst props).
Proof.
  eexists. split; [by_eval |].
  split; [reflexivity |]. split; [reflexivity |]. simpl. tauto.
Qed.

Lemma user_object_sanitized_witness :
  let sanitized :=
    JObj [("id", JStr "szbxTRMAbSaCMxdmk7AMbIfSCO"); ("fullName", JStr "Joe Blow");
          ("email", JStr "joeblow@example.com"); ("username", JStr "joeblow");
          ("password", JStr ""); ("tokens", JArr [])] in
  response_prop (login.handler store early (credentials "joeblow" "TestPassword4$"))
                "user" = Some sanitized
  /\ body (me.handler store early early (Some loginCookie)) = Json sanitized.
Proof.
  destruct (@user_object_sanitized platform store) as [Hlogin Hme].
  split.
  - transitivity (Some (User_json (sanitizeUser store))); [by_eval |].
    exact (f_equal Some
             (Hlogin early (credentials "joeblow" "TestPassword4$")
                (User_json (sanitizeUser store)) ltac:(by_eval))).
  - transitivity (Json (User_json (sanitizeUser store))); [by_eval |].
    exact (f_equal Json
             (Hme early early (Some loginCookie)
                (User_json (sanitizeUser store)) ltac:(by_eval))).
Defined.

(** C3 as stated fails: the string of the stored token is none of id,
    username and email, yet the lookup resolves on it while the token is
    live, and a login under it succeeds. *)
Lemma token_string_looks_up_user :
  fakeDb store early (Some (JStr seededToken)) = ret store
  /\ seededToken <> id store
  /\ seededToken <> username store
  /\ seededToken <> email store
  /\ status (login.handler store early (credentials seededToken "TestPassword4$"))
     = 200%Z.
Proof.
  split; [by_eval |]. split; [by_diff |]. split; [by_diff |]. split; [by_diff |].
  by_eval.
Qed.

Lemma credential_lookup_witness :
  fakeDb store early (Some (JStr "nobody")) = throw (OtherValue (Some (JBool false)))
  /\ login.handler store early (credentials "nobody" "TestPassword4$") = login.unauth.
Proof.
  destruct (@credential_lookup_iff platform store early "nobody") as [_ Hno].
  destruct Hno as [Hrej Hlogin].
  - intros [Hx | [Hx | [Hx | (t & E & [<- | []] & Hx & _)]]]; discriminate Hx.
  - split; [exact Hrej |].
    apply (Hlogin _ (JObj [("username", JStr "nobody");
                           ("password", JStr "TestPassword4$")]));
      by_eval.
Defined.

(** At the very instant the token expires. *)
Lemma expired_token_unauthorized_witness :
  me.handler store (futureDate started) (futureDate started) (Some loginCookie)
  = me.unauth
  /\ status (me.handler store (futureDate started) (futureDate started)
               (Some loginCookie)) = 401%Z.
Proof.
  apply (@expired_token_unauthorized platform started seeded (futureDate started)
           (futureDate started) (futureDate started) loginCookie loginResponse
           (LoginToken_json seeded) (expires seeded)
           ltac:(left; by_eval) ltac:(by_eval) ltac:(by_order) ltac:(by_order)
           ltac:(by_eval) ltac:(by_eval) ltac:(by_eval) ltac:(by_eval)).
Defined.

(** C5 as stated fails: one second past the expiry /api/auth/me answers
    401, and the store it leaves still holds the token. *)
Lemma expired_validate_keeps_entry :
  (serve store (GET_me late late (Some loginCookie))).1 = Some me.unauth
  /\ In seededToken
        (map token (tokens (serve store (GET_me late late (Some loginCookie))).2)).
Proof. split; [by_eval | left; reflexivity]. Qed.

Lemma expired_token_stays_stored_witness :
  run store [GET_me late late (Some loginCookie);
             GET_me (late + 1000) (late + 1000) (Some loginCookie)]
  = ([Some me.unauth; Some me.unauth], store)
  /\ In seeded (tokens (serve store (GET_me late late (Some loginCookie))).2).
Proof.
  apply (@expired_token_stays_stored platform started seeded (futureDate started)
           late late (late + 1000) (late + 1000) loginCookie loginResponse
           (LoginToken_json seeded) (expires seeded)
           ltac:(left; by_eval) ltac:(by_eval) ltac:(by_order) ltac:(by_order)
           ltac:(by_eval) ltac:(by_eval) ltac:(by_eval) ltac:(by_eval)).
Defined.

Lemma wrong_password_unauthorized_witness :
  login.handler store early (credentials "joeblow" "wrong") = login.unauth
  /\ status (login.handler store early (credentials "joeblow" "wrong")) = 401%Z
  /\ body (login.handler store early (credentials "joeblow" "wrong"))
     = Text "Unauthorized"
  /\ response_prop (login.handler store early (credentials "joeblow" "wrong")) "token"
     = None
  /\ response_prop (login.handler store early (credentials "joeblow" "wrong")) "user"
     = None.
Proof.
  apply (@wrong_password_unauthorized platform store early
           (credentials "joeblow" "wrong")
           (JObj [("username", JStr "joeblow"); ("password", JStr "wrong")])
           "wrong" ltac:(by_eval) ltac:(by_eval) ltac:(by_eval)).
Defined.

(** A login by username and a later one by email. *)
Lemma login_reuses_seeded_token_witness :
  response_prop (login.handler store early (credentials "joeblow" "TestPassword4$"))
                "token"
  = response_prop (login.handler store (early + 5000)
                     (credentials "joeblow@example.com" "TestPassword4$")) "token"
  /\ response_prop (login.handler store early (credentials "joeblow" "TestPassword4$"))
                   "token"
     = LoginToken_json <$> (tokens store !! 0%nat).
Proof.
  apply (@login_reuses_seeded_token platform store early
           (credentials "joeblow" "TestPassword4$") (early + 5000)
           (credentials "joeblow@example.com" "TestPassword4$")
           ltac:(by_eval) ltac:(by_eval)).
Defined.

(** C9 as stated fails: the user logs in, logs out, and two seconds later
    the token of the login still validates. *)
Lemma logout_then_validate_succeeds :
  (run store [POST_login early (credentials "joeblow" "TestPassword4$");
              GET_logout;
              GET_me (early + 2000) (early + 2000) (Some loginCookie)]).1
  = [Some (json_response loginResponse);
     None;
     Some (json_response (User_json (sanitizeUser store)))].
Proof. by_eval. Qed.

Lemma logout_keeps_session_witness :
  run store [GET_logout; GET_me (early + 2000) (early + 2000) (Some loginCookie)]
  = ([None; Some (json_response (User_json (sanitizeUser store)))], store).
Proof.
  apply (@logout_keeps_session platform store (early + 2000) (early + 2000)
           loginCookie loginResponse seeded (futureDate started)
           ltac:(left; by_eval) ltac:(by_diff) ltac:(by_diff) ltac:(by_eval)
           ltac:(by_order) ltac:(by_diff) ltac:(by_eval) ltac:(by_eval)).
Defined.

(** C10 as stated fails: the cookie [null] is JSON and is none of the
    cookies listed for 401, and it is answered 500, not 401. *)
Lemma null_cookie_internal_error :
  JSON_parse "null" = ret JNull
  /\ status (me.handler store early early (Some "null")) = 500%Z
  /\ me.handler store early early (Some "null") <> me.unauth.
Proof. split; [by_eval |]. split; [by_eval | by_diff]. Qed.

(** A cookie that is not JSON, the cookie [null], a cookie with an expiry
    the constructor throws on, and one of each kind that ends in 401. *)
Lemma malformed_cookie_internal_error_witness :
  status (me.handler store early early (Some "not json")) = 500%Z
  /\ status (me.handler store early early (Some "null")) = 500%Z
  /\ status (me.handler store early early (Some unconvertibleCookie)) = 500%Z
  /\ me.handler store early early None = me.unauth
  /\ me.handler store early early (Some emptyCookie) = me.unauth
  /\ me.handler store late late (Some loginCookie) = me.unauth
  /\ me.handler store early early (Some forgedCookie) = me.unauth.
Proof.
  destruct (@malformed_cookie_internal_error platform store early early "not json"
              ltac:(by_diff)) as (H500 & _ & Hnone & _).
  destruct (@malformed_cookie_internal_error platform store early early "null"
              ltac:(by_diff)) as (_ & Hnull & _).
  destruct (@malformed_cookie_internal_error platform store early early
              unconvertibleCookie ltac:(by_diff)) as (_ & _ & _ & _ & Hthrows).
  destruct (@malformed_cookie_internal_error platform store early early emptyCookie
              ltac:(by_diff)) as (_ & _ & _ & _ & Hempty).
  destruct (@malformed_cookie_internal_error platform store late late loginCookie
              ltac:(by_diff)) as (_ & _ & _ & _ & Hpast).
  destruct (@malformed_cookie_internal_error platform store early early forgedCookie
              ltac:(by_diff)) as (_ & _ & _ & _ & Hforged).
  split; [| split; [| split; [| split; [| split; [| split]]]]].
  - apply (H500 (ErrorObject "Unexpected token in JSON") ltac:(by_eval)).
  - apply Hnull. by_eval.
  - destruct (Hthrows unconvertible ltac:(by_eval) ltac:(discriminate))
      as (_ & H & _).
    apply (H (ErrorObject "Cannot convert object to primitive value")); by_eval.
  - exact Hnone.
  - destruct (Hempty (JObj []) ltac:(by_eval) ltac:(discriminate)) as (H & _).
    apply H. by_eval.
  - destruct (Hpast loginResponse ltac:(by_eval) ltac:(discriminate))
      as (_ & _ & H & _).
    apply (H (Some (futureDate started))); by_eval.
  - destruct (Hforged
                (JObj [("token", JObj [("token", JStr "forged");
                                       ("expires", JStr "2999-01-01T00:00:00.000Z")])])
                ltac:(by_eval) ltac:(discriminate)) as (_ & _ & _ & H & _).
    apply (H (iso_parse "2999-01-01T00:00:00.000Z") (OtherValue (Some (JBool false))));
      by_eval.
Defined.

(** The session [first] is refreshed into [second] at instant 1000. *)
Lemma refresh_consumes_token_witness :
  exists r,
    RefreshScenario.refreshed.1 = inr r
    /\ SessionCore.newToken r = "second"
    /\ SessionCore.validate RefreshScenario.directory RefreshScenario.refreshed.2
         2000 "first"
       = (inl SessionCore.TokenNotFound, RefreshScenario.refreshed.2)
    /\ SessionCore.validate RefreshScenario.directory RefreshScenario.refreshed.2
         2000 "second"
       = (inr RefreshScenario.joe, RefreshScenario.refreshed.2).
Proof.
  exists {| SessionCore.newToken := "second";
            SessionCore.newExpiresAt := 1000 + RefreshScenario.sessionTTL;
            SessionCore.user := RefreshScenario.joe |}.
  destruct (refresh_consumes_token RefreshScenario.directory RefreshScenario.sessionTTL
              RefreshScenario.store 1000 "second" "first"
              {| SessionCore.newToken := "second";
                 SessionCore.newExpiresAt := 1000 + RefreshScenario.sessionTTL;
                 SessionCore.user := RefreshScenario.joe |}
              RefreshScenario.refreshed.2
              ltac:(by_eval) ltac:(discriminate)) as [Hold Hnew].
  split; [by_eval |]. split; [reflexivity |]. split.
  - apply Hold.
  - apply (Hnew 2000%Z). by_order.
Defined.

(** * The further properties at concrete requests *)

Import Visits.

Lemma me_success_sound_witness :
  exists text cookieData s,
    Some loginCookie = Some text
    /\ JSON_parse text = ret cookieData
    /\ prop (prop (Some cookieData) "token") "token" = Some (JStr s)
    /\ (s = id store \/ s = username store \/ s = email store
        \/ live_token store early s)
    /\ me.handler store early early (Some loginCookie)
       = json_response (User_json (sanitizeUser store)).
Proof.
  apply (@me_success_sound platform store early early (Some loginCookie)
           ltac:(by_eval)).
Defined.

(** One second after the stored token has expired, the username alone
    still opens the session. *)
Lemma me_accepts_identifier_witness :
  me.handler store late late (Some identifierCookie)
  = json_response (User_json (sanitizeUser store)).
Proof.
  apply (@me_accepts_identifier platform store late late identifierCookie
           (JObj [("token", JObj [("token", JStr "joeblow");
                                  ("expires", JStr "2999-01-01T00:00:00.000Z")])])
           (JObj [("token", JStr "joeblow");
                  ("expires", JStr "2999-01-01T00:00:00.000Z")])
           "joeblow" "2999-01-01T00:00:00.000Z"
           ltac:(by_diff) ltac:(by_eval) ltac:(by_eval) ltac:(by_eval)
           ltac:(by_eval) ltac:(by_diff) ltac:(by_diff)
           ltac:(right; left; reflexivity) ltac:(by_eval)).
Defined.

Lemma me_unparsed_expiry_passes_witness :
  me.handler store early early (Some undatedCookie)
  = json_response (User_json (sanitizeUser store)).
Proof.
  apply (@me_unparsed_expiry_passes platform store early early undatedCookie
           undated
           (JObj [("token", JStr seededToken); ("expires", JStr "never")])
           seeded (futureDate started) "never"
           ltac:(by_diff) ltac:(by_eval) ltac:(by_eval) ltac:(by_eval)
           ltac:(by_eval) ltac:(by_diff) ltac:(by_diff) ltac:(by_eval)
           ltac:(left; by_eval) ltac:(by_eval) ltac:(by_order)).
Defined.

(** The cookie of the login and one with a forged user get one answer. *)
Lemma me_reads_token_only_witness :
  me.handler store early early (Some loginCookie)
  = me.handler store early early (Some forgedUserCookie).
Proof.
  apply (@me_reads_token_only platform store early early loginCookie
           forgedUserCookie loginResponse
           (JObj [("user", forgedUser); ("token", LoginToken_json seeded)])
           ltac:(by_diff) ltac:(by_diff) ltac:(by_eval) ltac:(by_eval)
           ltac:(by_eval)).
Defined.

Lemma me_success_earlier_witness :
  me.handler store started started (Some loginCookie)
  = me.handler store early early (Some loginCookie)
  /\ status (me.handler store (late + 1000) (late + 1000) (Some loginCookie))
     <> 200%Z.
Proof.
  split.
  - apply (@me_success_earlier platform store started started early early
             (Some loginCookie) ltac:(by_order) ltac:(by_order)).
    by_eval.
  - apply (@me_success_earlier platform store late late (late + 1000) (late + 1000)
             (Some loginCookie) ltac:(by_order) ltac:(by_order)).
    by_diff.
Defined.

Lemma me_internal_error_iff_witness :
  status (me.handler store early early (Some "not json")) = 500%Z.
Proof.
  apply (@me_internal_error_iff platform store early early (Some "not json")).
  exists "not json". split; [reflexivity |]. split; [by_diff |].
  left. exists (ErrorObject "Unexpected token in JSON"). by_eval.
Defined.

Lemma login_success_iff_witness :
  status (login.handler store early (credentials "joeblow" "TestPassword4$"))
  = 200%Z.
Proof.
  apply (@login_success_iff platform store early
           (credentials "joeblow" "TestPassword4$")).
  exists loginBody, "TestPassword4$".
  split; [by_eval |]. split; [by_eval |]. split; by_eval.
Defined.

Lemma login_string_password_no_error_witness :
  status (login.handler store early (credentials "joeblow" "wrong")) = 200%Z
  \/ login.handler store early (credentials "joeblow" "wrong") = login.unauth.
Proof.
  apply (@login_string_password_no_error platform store early
           (credentials "joeblow" "wrong")
           (JObj [("username", JStr "joeblow"); ("password", JStr "wrong")])
           "wrong" ltac:(by_eval) ltac:(by_eval)).
Defined.

(** Without a password, the known username is answered 500 and the
    unknown one 401. *)
Lemma login_missing_password_reveals_user_witness :
  status (login.handler store early (usernameOnly "joeblow")) = 500%Z
  /\ login.handler store early (usernameOnly "nobody") = login.unauth.
Proof.
  split.
  - apply (@login_missing_password_reveals_user platform store early
             (usernameOnly "joeblow") (JObj [("username", JStr "joeblow")])
             ltac:(by_eval) ltac:(by_diff)).
    by_eval.
  - apply (@login_missing_password_reveals_user platform store early
             (usernameOnly "nobody") (JObj [("username", JStr "nobody")])
             ltac:(by_eval) ltac:(by_diff)).
    by_diff.
Defined.

Lemma login_after_expiry_hands_out_dead_token_witness :
  login.handler store late (credentials "joeblow" "TestPassword4$")
  = json_response loginResponse
  /\ me.handler store (late + 1000) (late + 1000) (Some loginCookie) = me.unauth.
Proof.
  apply (@login_after_expiry_hands_out_dead_token platform started late
           (credentials "joeblow" "TestPassword4$") loginBody
           "joeblow" "TestPassword4$" seeded (futureDate started)
           (late + 1000) (late + 1000) loginCookie loginResponse
           ltac:(by_eval) ltac:(by_eval) ltac:(by_order) ltac:(by_eval)
           ltac:(by_eval) ltac:(by_eval) ltac:(right; left; reflexivity)
           ltac:(by_eval) ltac:(by_order) ltac:(by_order) ltac:(by_eval)
           ltac:(by_eval)).
Defined.

(** The form as it is pre-filled, and with a wrong password. *)
Lemma hook_login_outcome_witness :
  useAuth.login (ret (login.handler store early
                        (credentials "joeblow" "TestPassword4$")))
  = ([setUser (Some (User_json (sanitizeUser store)));
      setCookie loginResponse (Some (futureDate started))],
     ret true)
  /\ useAuth.login (ret (login.handler store early (credentials "joeblow" "wrong")))
     = ([console_error_text (Text "Unauthorized")],
        throw (ErrorObject "Invalid username or password")).
Proof.
  split.
  - apply (@hook_login_outcome platform store early
             (credentials "joeblow" "TestPassword4$") "joeblow" "TestPassword4$"
             seeded ltac:(by_eval) ltac:(by_eval)).
    split; by_eval.
  - apply (@hook_login_outcome platform store early
             (credentials "joeblow" "wrong") "joeblow" "wrong"
             seeded ltac:(by_eval) ltac:(by_eval)).
    intros [_ Hc]. vm_compute in Hc. discriminate Hc.
Defined.

(** A page load one second after the token has expired. *)
Lemma hook_reload_refused_witness :
  useAuth.loadUser (Some loginCookie)
    (ret (me.handler store late late (Some loginCookie)))
  = ([console_log "Pulling user data...";
      setUser (Some (User_json (sanitizeUser store)));
      setUser null; deleteCookie],
     ret tt)
  /\ ProtectedPage
       (user_after null
          (useAuth.loadUser (Some loginCookie)
             (ret (me.handler store late late (Some loginCookie)))).1)
     = LoginWrapper.
Proof.
  apply (@hook_reload_refused platform store late late loginCookie loginResponse
           (Some (User_json (sanitizeUser store))) null
           ltac:(by_eval) ltac:(by_eval) ltac:(by_diff)).
Defined.

(** A page load with the forged user in the cookie: the server's user
    replaces it. *)
Lemma hook_reload_accepted_witness :
  exists d,
    newDate (prop (Some (LoginToken_json seeded)) "expires") = ret d
    /\ date_lt d early = false
    /\ useAuth.loadUser (Some forgedUserCookie)
         (ret (me.handler store early early (Some forgedUserCookie)))
       = ([console_log "Pulling user data...";
           setUser (Some forgedUser);
           console_log "Done fetching user!";
           setUser (Some (User_json (sanitizeUser store)));
           setCookie loginResponse d],
          ret tt)
    /\ ProtectedPage
         (user_after null
            (useAuth.loadUser (Some forgedUserCookie)
               (ret (me.handler store early early (Some forgedUserCookie)))).1)
       = children.
Proof.
  apply (@hook_reload_accepted platform store early early forgedUserCookie
           [("user", forgedUser); ("token", LoginToken_json seeded)] null
           ltac:(by_eval) ltac:(by_eval)).
Defined.

(** A body with a number for a username and no password, and the body
    [null]. *)
Lemma login_without_username_witness :
  login.handler store early numericUsername = login.unauth
  /\ login.handler store early "null" = login.unauth.
Proof.
  split.
  - apply (@login_without_username platform store early numericUsername
             (JObj [("username", JNum 7)]) ltac:(by_eval) ltac:(by_diff)).
  - apply (@login_without_username platform store early "null" JNull
             ltac:(by_eval) ltac:(by_diff)).
Defined.
